(** * Reverse-osmosis filtration controller (main.py): model and properties

    The controller is a MicroPython program for a Raspberry Pi Pico.  Three
    kinds of coroutines run on one cooperative event loop: the button loop
    [handle_button], the monitor loop [check_auto_flush], and the sequences
    they spawn ([auto_flush_filter], [long_flush_filter], [filter_water]).
    They share the module-level variables and the output pins.

    The embedding keeps that structure.  The module-level variables, the pins,
    the configuration file, the console and the event loop's task table are
    the fields of one record [world]; every Python function is a computation
    in a state monad over [world]; every coroutine is cut at its [await]s into
    a program counter and a function that runs it from one [await] to the
    next.  The event loop is a labelled step function: a label names the
    coroutine that is resumed and the reading of the clock at that moment. *)

From Stdlib Require Import ZArith Bool List Lia.
From stdpp Require Import base option list gmap strings.

Local Open Scope Z_scope.

(** ** Data *)

(** The five relay outputs. *)
Inductive pin := Valve1 | Valve2 | Valve3 | Valve4 | Pump.

(** Output registers: the level last written to each relay pin, and the
    frequency and duty cycle of the buzzer's PWM channel. *)
Record pins := Pins {
  PIN_VALVE1 : bool;
  PIN_VALVE2 : bool;
  PIN_VALVE3 : bool;
  PIN_VALVE4 : bool;
  PIN_PUMP : bool;
  BUZZER_freq : Z;
  BUZZER_duty : Z
}.

(** [running_task_type] is [None], ['FLUSHING'] or ['FILTERING']. *)
Inductive task_type := FLUSHING | FILTERING.

Definition task_type_eqb (a b : task_type) : bool :=
  match a, b with
  | FLUSHING, FLUSHING | FILTERING, FILTERING => true
  | _, _ => false
  end.

(** [running_task_type == ty] *)
Definition type_is (o : option task_type) (ty : task_type) : bool :=
  match o with
  | Some a => task_type_eqb a ty
  | None => false
  end.

(** Exceptions that reach the program. *)
Inductive exn := OSError | ValueError | TypeError.

(** What [config.json] holds.  The JSON library is not part of the program, so
    a file is described by what [ujson.loads] and [CONFIG.update] make of its
    text.  Either the text is not JSON ([ujson.loads] raises [ValueError]); or
    it is an object whose values are integers (a list of key-value pairs is
    taken by [CONFIG.update] like the object with these members); or it is
    JSON that [ujson.loads] accepts and that is nothing [CONFIG.update] can
    take, so that [update] raises [e]: [TypeError] for [null], a number, a
    truth value or a list of numbers such as [[1, 2]], [ValueError] for a
    string that is not empty. *)
Inductive file_content :=
| Garbage
| Json (d : gmap string Z)
| NotObject (e : exn).

(** What [ujson.loads] returns: a dictionary, or a value of another kind, on
    which [dict.update] raises [e]. *)
Inductive loaded :=
| Dict (d : gmap string Z)
| NotDict (e : exn).

(** Lines written to the console by [print]. *)
Inductive msg :=
| MsgPump (on : bool)
| MsgSafetyShutDown
| MsgInit
| MsgConfigRead (c : gmap string Z)
| MsgAutoFlushFilter
| MsgPreFlush (sec : Z)
| MsgDispose (sec : Z)
| MsgPostFlush (sec : Z)
| MsgLongFlush (sec : Z)
| MsgClosingInlet
| MsgClosingValves
| MsgNewline
| MsgFilterWater (sec : Z)
| MsgFilteringDone
| MsgSuperLongPress
| MsgLongPress
| MsgShortPress
| MsgCancelTask (ty : option task_type)
| MsgLongFlushing
| MsgSaveInterval (sec : Z)
| MsgCancelFlushLongFilter
| MsgCancelFlushFilter
| MsgLongFiltering
| MsgFiltering
| MsgAutoFlushing.

(** Everything the program does to the outside, in the order it does it. *)
Inductive event :=
| Print (m : msg)
| PinWrite (p : pin) (v : bool)
| BuzzerFreq (f : Z)
| BuzzerDuty (d : Z)
| FileWrite (c : gmap string Z).

(** Program counters of the spawned sequences.  A counter names the [await]
    at which the coroutine is suspended; [_start] is a coroutine that was
    created and has not run yet.  [filter_water] keeps its local
    [duration_sec] until the filtration wait begins. *)
Inductive pc :=
(* auto_flush_filter *)
| AF_start | AF_psd1 | AF_pre | AF_disposal | AF_post | AF_psd2 | AF_drain
(* long_flush_filter *)
| LF_start | LF_flush
(* filter_water: argument, pre_flush_filter, filtering, finish_beeps, cleanup *)
| FW_start (duration_sec : option Z)
| FW_pre_psd (duration_sec : Z) | FW_pre (duration_sec : Z)
| FW_disposal (duration_sec : Z)
| FW_psd (duration_sec : Z) | FW_filter
| FW_beep1 | FW_beep2 | FW_beep3 | FW_beep4 | FW_beep5
| FW_post | FW_psd2 | FW_drain
(* finished, normally or by cancellation *)
| Done.

Definition pc_done (p : pc) : bool :=
  match p with Done => true | _ => false end.

(** A task of the event loop: where its coroutine is suspended, when it is
    due, and whether a [CancelledError] waits to be thrown into it. *)
Record task := Task {
  t_pc : pc;
  t_wake : Z;
  t_cancel : bool
}.

(** The button loop. *)
Inductive button_pc :=
| HB_start
| HB_wait_press
| HB_wait_release (ms_start : Z)
| HB_beep (super_long_pressed long_pressed : bool).

(** The monitor loop. *)
Inductive auto_pc := AC_start | AC_sleep.

Record world := World {
  hw : pins;
  (* module-level variables *)
  CONFIG : gmap string Z;
  last_flush : Z;
  last_reflush : Z;
  last_filtering : Z;
  start_filtering : Z;
  running_task : option nat;          (* [None] is the [DummyTask] *)
  running_task_type : option task_type;
  (* environment *)
  CONFIG_FILE : option file_content;  (* [None]: there is no such file *)
  console : list event;
  clock : Z;                          (* milliseconds *)
  (* event loop *)
  tasks : list task;                  (* [create_task] appends; a handle is an index *)
  button_co : button_pc * Z;
  auto_co : auto_pc * Z
}.

(** Field updates. *)
Definition set_hw (v : pins) (w : world) : world :=
  World v (CONFIG w) (last_flush w) (last_reflush w) (last_filtering w)
    (start_filtering w) (running_task w) (running_task_type w) (CONFIG_FILE w)
    (console w) (clock w) (tasks w) (button_co w) (auto_co w).
Definition set_CONFIG (v : gmap string Z) (w : world) : world :=
  World (hw w) v (last_flush w) (last_reflush w) (last_filtering w)
    (start_filtering w) (running_task w) (running_task_type w) (CONFIG_FILE w)
    (console w) (clock w) (tasks w) (button_co w) (auto_co w).
Definition set_last_flush (v : Z) (w : world) : world :=
  World (hw w) (CONFIG w) v (last_reflush w) (last_filtering w)
    (start_filtering w) (running_task w) (running_task_type w) (CONFIG_FILE w)
    (console w) (clock w) (tasks w) (button_co w) (auto_co w).
Definition set_last_filtering (v : Z) (w : world) : world :=
  World (hw w) (CONFIG w) (last_flush w) (last_reflush w) v
    (start_filtering w) (running_task w) (running_task_type w) (CONFIG_FILE w)
    (console w) (clock w) (tasks w) (button_co w) (auto_co w).
Definition set_start_filtering (v : Z) (w : world) : world :=
  World (hw w) (CONFIG w) (last_flush w) (last_reflush w) (last_filtering w)
    v (running_task w) (running_task_type w) (CONFIG_FILE w)
    (console w) (clock w) (tasks w) (button_co w) (auto_co w).
Definition set_running_task (v : option nat) (w : world) : world :=
  World (hw w) (CONFIG w) (last_flush w) (last_reflush w) (last_filtering w)
    (start_filtering w) v (running_task_type w) (CONFIG_FILE w)
    (console w) (clock w) (tasks w) (button_co w) (auto_co w).
Definition set_running_task_type (v : option task_type) (w : world) : world :=
  World (hw w) (CONFIG w) (last_flush w) (last_reflush w) (last_filtering w)
    (start_filtering w) (running_task w) v (CONFIG_FILE w)
    (console w) (clock w) (tasks w) (button_co w) (auto_co w).
Definition set_CONFIG_FILE (v : option file_content) (w : world) : world :=
  World (hw w) (CONFIG w) (last_flush w) (last_reflush w) (last_filtering w)
    (start_filtering w) (running_task w) (running_task_type w) v
    (console w) (clock w) (tasks w) (button_co w) (auto_co w).
Definition set_console (v : list event) (w : world) : world :=
  World (hw w) (CONFIG w) (last_flush w) (last_reflush w) (last_filtering w)
    (start_filtering w) (running_task w) (running_task_type w) (CONFIG_FILE w)
    v (clock w) (tasks w) (button_co w) (auto_co w).
Definition set_clock (v : Z) (w : world) : world :=
  World (hw w) (CONFIG w) (last_flush w) (last_reflush w) (last_filtering w)
    (start_filtering w) (running_task w) (running_task_type w) (CONFIG_FILE w)
    (console w) v (tasks w) (button_co w) (auto_co w).
Definition set_tasks (v : list task) (w : world) : world :=
  World (hw w) (CONFIG w) (last_flush w) (last_reflush w) (last_filtering w)
    (start_filtering w) (running_task w) (running_task_type w) (CONFIG_FILE w)
    (console w) (clock w) v (button_co w) (auto_co w).
Definition set_button_co (v : button_pc * Z) (w : world) : world :=
  World (hw w) (CONFIG w) (last_flush w) (last_reflush w) (last_filtering w)
    (start_filtering w) (running_task w) (running_task_type w) (CONFIG_FILE w)
    (console w) (clock w) (tasks w) v (auto_co w).
Definition set_auto_co (v : auto_pc * Z) (w : world) : world :=
  World (hw w) (CONFIG w) (last_flush w) (last_reflush w) (last_filtering w)
    (start_filtering w) (running_task w) (running_task_type w) (CONFIG_FILE w)
    (console w) (clock w) (tasks w) (button_co w) v.

(** ** The state monad of the program *)

Definition M (A : Type) : Type := world -> A * world.

Definition ret {A} (a : A) : M A := fun w => (a, w).

Definition bind {A B} (m : M A) (k : A -> M B) : M B :=
  fun w => match m w with (a, w') => k a w' end.

(** The program is written with stdpp's monad notation: [x ← m; k] binds the
    result of [m], and [m;; k] drops it. *)
#[global] Instance M_ret : MRet M := @ret.
#[global] Instance M_bind : MBind M := fun A B k m => bind m k.

Definition get {A} (f : world -> A) : M A := fun w => (f w, w).
Definition modify (f : world -> world) : M unit := fun w => (tt, f w).
Definition exec {A} (m : M A) (w : world) : world := snd (m w).

(** A Python [if] without [else]. *)
Definition when (b : bool) (m : M unit) : M unit := if b then m else ret tt.

(** ** Library calls *)

Definition emit (e : event) : M unit :=
  modify (fun w => set_console (console w ++ [e]) w).

Definition print (m : msg) : M unit := emit (Print m).

(** [time.time()]: whole seconds. *)
Definition time_time : M Z := get (fun w => clock w / 1000).

(** [time.ticks_ms()]: the millisecond counter, which wraps at [2^30]. *)
Definition TICKS_PERIOD : Z := 2 ^ 30.
Definition ticks_ms : M Z := get (fun w => clock w mod TICKS_PERIOD).

(** [CONFIG[k]].  Every key the program reads is present from the start and
    no key is ever removed (lemma [nine_keys_present] below), so the default
    is never taken. *)
Definition config_get (c : gmap string Z) (k : string) : Z := default 0 (c !! k).
Definition cfg (k : string) : M Z := get (fun w => config_get (CONFIG w) k).

(** [PIN.value(v)] *)
Definition pin_set (p : pin) (v : bool) (h : pins) : pins :=
  match p with
  | Valve1 => Pins v (PIN_VALVE2 h) (PIN_VALVE3 h) (PIN_VALVE4 h) (PIN_PUMP h) (BUZZER_freq h) (BUZZER_duty h)
  | Valve2 => Pins (PIN_VALVE1 h) v (PIN_VALVE3 h) (PIN_VALVE4 h) (PIN_PUMP h) (BUZZER_freq h) (BUZZER_duty h)
  | Valve3 => Pins (PIN_VALVE1 h) (PIN_VALVE2 h) v (PIN_VALVE4 h) (PIN_PUMP h) (BUZZER_freq h) (BUZZER_duty h)
  | Valve4 => Pins (PIN_VALVE1 h) (PIN_VALVE2 h) (PIN_VALVE3 h) v (PIN_PUMP h) (BUZZER_freq h) (BUZZER_duty h)
  | Pump => Pins (PIN_VALVE1 h) (PIN_VALVE2 h) (PIN_VALVE3 h) (PIN_VALVE4 h) v (BUZZER_freq h) (BUZZER_duty h)
  end.

Definition pin_value (p : pin) (v : bool) : M unit :=
  modify (fun w => set_hw (pin_set p v (hw w)) w);; emit (PinWrite p v).

(** [BUZZER.freq(f)] and [BUZZER.duty_u16(d)] *)
Definition buzzer_freq (f : Z) : M unit :=
  modify (fun w => set_hw (Pins (PIN_VALVE1 (hw w)) (PIN_VALVE2 (hw w)) (PIN_VALVE3 (hw w))
                             (PIN_VALVE4 (hw w)) (PIN_PUMP (hw w)) f (BUZZER_duty (hw w))) w);;
  emit (BuzzerFreq f).
Definition buzzer_duty_u16 (d : Z) : M unit :=
  modify (fun w => set_hw (Pins (PIN_VALVE1 (hw w)) (PIN_VALVE2 (hw w)) (PIN_VALVE3 (hw w))
                             (PIN_VALVE4 (hw w)) (PIN_PUMP (hw w)) (BUZZER_freq (hw w)) d) w);;
  emit (BuzzerDuty d).

(** ** Configuration file *)

Inductive result (A : Type) :=
| Ok (a : A)
| Raise (e : exn).
Arguments Ok {A} a.
Arguments Raise {A} e.

(** [open(CONFIG_FILE, 'r')] followed by [f.read()] *)
Definition open_read (f : option file_content) : result file_content :=
  match f with
  | None => Raise OSError
  | Some c => Ok c
  end.

(** [ujson.loads] *)
Definition ujson_loads (c : file_content) : result loaded :=
  match c with
  | Garbage => Raise ValueError
  | Json d => Ok (Dict d)
  | NotObject e => Ok (NotDict e)
  end.

(** The [try] block of [read_config]. *)
Definition read_config_try (f : option file_content) : result loaded :=
  match open_read f with
  | Ok config_data => ujson_loads config_data
  | Raise e => Raise e
  end.

(** [read_config]: only [OSError] is caught. *)
Definition read_config (w : world) : result loaded :=
  match read_config_try (CONFIG_FILE w) with
  | Ok config => Ok config
  | Raise OSError => Ok (Dict ∅)
  | Raise e => Raise e
  end.

(** [write_config]: the whole dictionary it is given replaces the file. *)
Definition write_config (config : gmap string Z) : M unit :=
  modify (set_CONFIG_FILE (Some (Json config)));; emit (FileWrite config).

(** ** Actuators *)

Definition _set_valves (v1 v2 v3 v4 : bool) : M unit :=
  pin_value Valve1 (negb v1);;
  pin_value Valve2 (negb v2);;
  pin_value Valve3 (negb v3);;
  pin_value Valve4 (negb v4).

Definition set_pump (p : bool) : M unit :=
  print (MsgPump p);;
  pin_value Pump p.

Definition close_valves : M unit :=
  on ← get (fun w => PIN_PUMP (hw w));
  when on (print MsgSafetyShutDown;; pin_value Pump false);;
  _set_valves false false false false.

Definition close_inlet_valve : M unit :=
  on ← get (fun w => PIN_PUMP (hw w));
  when on (print MsgSafetyShutDown;; pin_value Pump false);;
  _set_valves false true false false.

Definition set_valves_to_flush : M unit := _set_valves true true false false.
Definition set_valves_to_disposal : M unit := _set_valves true false false true.
Definition set_valves_to_filter : M unit := _set_valves true false true false.

(** The valve presets, read back from the pins. *)
Inductive layout := Closed | Drain | Flush | Disposal | Filter.

Definition layout_of (h : pins) : option layout :=
  match negb (PIN_VALVE1 h), negb (PIN_VALVE2 h), negb (PIN_VALVE3 h), negb (PIN_VALVE4 h) with
  | false, false, false, false => Some Closed
  | false, true, false, false => Some Drain
  | true, true, false, false => Some Flush
  | true, false, false, true => Some Disposal
  | true, false, true, false => Some Filter
  | _, _, _, _ => None
  end.

(** The pump may run only in a layout that lets water through. *)
Definition pump_safe (w : world) : bool :=
  negb (PIN_PUMP (hw w)) ||
  match layout_of (hw w) with
  | Some Flush | Some Disposal | Some Filter => true
  | _ => false
  end.

(** ** Event loop primitives *)

(** [await uasyncio.sleep_ms(ms)]: suspend at [next]; [uasyncio.sleep(sec)]
    is the same wait with seconds turned into milliseconds. *)
Definition sleep_ms {P} (ms : Z) (next : P) : M (P * Z) := ret (next, ms).
Definition sleep {P} (sec : Z) (next : P) : M (P * Z) := ret (next, 1000 * sec).

(** The coroutine returns or lets an exception escape. *)
Definition finished : M (pc * Z) := ret (Done, 0).

(** [event_loop.create_task]: the new task is due at once. *)
Definition create_task (p : pc) : M nat :=
  fun w => (length (tasks w), set_tasks (tasks w ++ [Task p (clock w) false]) w).

(** [running_task.done()]; the [DummyTask] is always done. *)
Definition task_done (w : world) : bool :=
  match running_task w with
  | None => true
  | Some i =>
      match tasks w !! i with
      | Some t => pc_done (t_pc t)
      | None => true
      end
  end.

(** [running_task.cancel()]: a task that is not finished is brought forward to
    now, and a [CancelledError] is thrown into it when it runs next. *)
Definition cancel_task (i : nat) (w : world) : world :=
  match tasks w !! i with
  | Some t =>
      if pc_done (t_pc t) then w
      else set_tasks (<[i := Task (t_pc t) (Z.min (t_wake t) (clock w)) true]> (tasks w)) w
  | None => w
  end.

Definition running_task_cancel : M unit :=
  modify (fun w => match running_task w with
                   | Some i => cancel_task i w
                   | None => w
                   end).

(** ** The sequences *)

Definition BEEP_ON : Z := 32768.

(** [last_flush = time.time()] and [last_filtering = time.time()] *)
Definition record_last_flush : M unit :=
  t ← time_time; modify (set_last_flush t).
Definition record_last_filtering : M unit :=
  t ← time_time; modify (set_last_filtering t).

(** [pre_flush_filter], as [filter_water] awaits it, up to its first wait. *)
Definition pre_flush_filter_begin (duration_sec : Z) : M (pc * Z) :=
  modify (set_running_task_type (Some FLUSHING));;
  s ← cfg "pre_flush_sec"; print (MsgPreFlush s);;
  set_valves_to_flush;;
  d ← cfg "pump_switch_delay"; sleep_ms d (FW_pre_psd duration_sec).

(** The [try] block of [filter_water], up to its first wait. *)
Definition filter_begin (duration_sec : Z) : M (pc * Z) :=
  modify (set_running_task_type (Some FILTERING));;
  t ← time_time; modify (set_start_filtering t);;
  print (MsgFilterWater duration_sec);;
  set_valves_to_filter;;
  d ← cfg "pump_switch_delay"; sleep_ms d (FW_psd duration_sec).

(** The [finally] block of [filter_water], up to its first wait: it awaits
    [post_flush_filter]. *)
Definition filter_finally_begin : M (pc * Z) :=
  modify (set_running_task_type (Some FLUSHING));;
  s ← cfg "post_flush_sec"; print (MsgPostFlush s);;
  set_valves_to_flush;;
  sleep s FW_post.

(** [flush_needed] in [filter_water] *)
Definition flush_needed (w : world) : bool :=
  config_get (CONFIG w) "water_clean_sec" <? clock w / 1000 - Z.max (last_flush w) (last_filtering w).

(** Resume a sequence whose wait is over: run it to its next wait. *)
Definition resume (p : pc) : M (pc * Z) :=
  match p with
  (* auto_flush_filter *)
  | AF_start =>
      print MsgAutoFlushFilter;;
      modify (set_running_task_type (Some FLUSHING));;
      s ← cfg "pre_flush_sec"; print (MsgPreFlush s);;
      set_valves_to_flush;;
      d ← cfg "pump_switch_delay"; sleep_ms d AF_psd1
  | AF_psd1 =>
      set_pump true;;
      s ← cfg "pre_flush_sec"; sleep s AF_pre
  | AF_pre =>
      s ← cfg "disposal_sec"; print (MsgDispose s);;
      set_valves_to_disposal;;
      sleep s AF_disposal
  | AF_disposal =>
      s ← cfg "post_flush_sec"; print (MsgPostFlush s);;
      set_valves_to_flush;;
      sleep s AF_post
  | AF_post =>
      set_pump false;;
      d ← cfg "pump_switch_delay"; sleep_ms d AF_psd2
  | AF_psd2 =>
      print MsgClosingInlet;;
      close_inlet_valve;;
      sleep_ms 2000 AF_drain
  | AF_drain =>
      print MsgClosingValves;;
      close_valves;;
      print MsgNewline;;
      record_last_flush;;            (* finally *)
      finished
  (* long_flush_filter *)
  | LF_start =>
      modify (set_running_task_type (Some FLUSHING));;
      s ← cfg "long_flush_sec"; print (MsgLongFlush s);;
      set_valves_to_flush;;
      sleep s LF_flush
  | LF_flush =>
      record_last_flush;;            (* finally *)
      finished
  (* filter_water *)
  | FW_start arg =>
      default_sec ← cfg "filter_sec";
      let duration_sec := default default_sec arg in
      needed ← get flush_needed;
      if needed : bool then pre_flush_filter_begin duration_sec
      else filter_begin duration_sec
  | FW_pre_psd duration_sec =>
      set_pump true;;
      s ← cfg "pre_flush_sec"; sleep s (FW_pre duration_sec)
  | FW_pre duration_sec =>
      s ← cfg "disposal_sec"; print (MsgDispose s);;
      set_valves_to_disposal;;
      sleep s (FW_disposal duration_sec)
  | FW_disposal duration_sec =>
      filter_begin duration_sec      (* pre_flush_filter returns *)
  | FW_psd duration_sec =>
      set_pump true;;
      sleep duration_sec FW_filter
  | FW_filter =>
      print MsgFilteringDone;;
      f ← cfg "buzzer_frequency"; buzzer_freq f;;   (* finish_beeps *)
      buzzer_duty_u16 BEEP_ON;;
      sleep_ms 400 FW_beep1
  | FW_beep1 => buzzer_duty_u16 0;; sleep_ms 200 FW_beep2
  | FW_beep2 => buzzer_duty_u16 BEEP_ON;; sleep_ms 400 FW_beep3
  | FW_beep3 => buzzer_duty_u16 0;; sleep_ms 200 FW_beep4
  | FW_beep4 => buzzer_duty_u16 BEEP_ON;; sleep_ms 400 FW_beep5
  | FW_beep5 =>
      buzzer_duty_u16 0;;
      filter_finally_begin           (* finally *)
  | FW_post =>
      record_last_flush;;            (* finally of post_flush_filter *)
      set_pump false;;
      d ← cfg "pump_switch_delay"; sleep_ms d FW_psd2
  | FW_psd2 =>
      print MsgClosingInlet;;
      close_inlet_valve;;
      sleep_ms 2000 FW_drain
  | FW_drain =>
      print MsgClosingValves;;
      close_valves;;
      record_last_filtering;;
      print MsgNewline;;
      finished
  | Done => finished
  end.

(** Resume a sequence by throwing [CancelledError] into the [await] it is
    suspended at: the enclosing [finally] blocks run, and the coroutine goes on
    only while one of them awaits. *)
Definition throw (p : pc) : M (pc * Z) :=
  match p with
  (* not started: nothing of the body runs *)
  | AF_start | LF_start | FW_start _ => finished
  (* auto_flush_filter, long_flush_filter: inside [try] *)
  | AF_psd1 | AF_pre | AF_disposal | AF_post | AF_psd2 | AF_drain | LF_flush =>
      record_last_flush;; finished
  (* filter_water inside pre_flush_filter, whose [finally] is [pass]; the
     call is made before [filter_water] enters its own [try] *)
  | FW_pre_psd _ | FW_pre _ | FW_disposal _ => finished
  (* filter_water inside its [try] *)
  | FW_psd _ | FW_filter
  | FW_beep1 | FW_beep2 | FW_beep3 | FW_beep4 | FW_beep5 => filter_finally_begin
  (* filter_water inside its [finally], within post_flush_filter's [try] *)
  | FW_post => record_last_flush;; finished
  (* filter_water inside its [finally], after post_flush_filter *)
  | FW_psd2 | FW_drain => finished
  | Done => finished
  end.

(** ** The button loop *)

(** The two flags [handle_button] computes from the measured duration. *)
Definition super_long_pressed_of (ms_duration : Z) : bool := 5000 <=? ms_duration.
Definition long_pressed_of (ms_duration : Z) : bool :=
  (800 <? ms_duration) && (ms_duration <? 5000).

(** The class of a press is the branch of the [if]/[elif]/[else] that beeps. *)
Inductive press := Short | Long | SuperLong.

Definition press_of_flags (super_long_pressed long_pressed : bool) : press :=
  if super_long_pressed then SuperLong
  else if long_pressed then Long
  else Short.

Definition classify (ms_duration : Z) : press :=
  press_of_flags (super_long_pressed_of ms_duration) (long_pressed_of ms_duration).

(** The three beeps up to their wait; each ends with [BUZZER.duty_u16(0)]
    when it is resumed. *)
Definition beep_begin : M unit :=
  f ← cfg "buzzer_frequency"; buzzer_freq f;;
  buzzer_duty_u16 BEEP_ON.

(** "decide upon the action": the part of [handle_button] after the beep. *)
Definition decide_action (super_long_pressed long_pressed : bool) : M unit :=
  done ← get task_done;
  if negb done then
    print MsgNewline;;
    ty ← get running_task_type;
    print (MsgCancelTask ty);;
    running_task_cancel;;            (* the running task is always canceled *)
    if super_long_pressed then
      print MsgLongFlushing;;
      t ← create_task LF_start; modify (set_running_task (Some t))
    else if long_pressed && type_is ty FILTERING then
      now ← time_time;
      started ← get start_filtering;
      modify (fun w => set_CONFIG (<["filter_sec" := now - started]> (CONFIG w)) w);;
      c ← get CONFIG; write_config c;;
      s ← cfg "filter_sec"; print (MsgSaveInterval s)
    else if long_pressed && type_is ty FLUSHING then
      print MsgCancelFlushLongFilter;;
      t ← create_task (FW_start (Some (60 * 60))); modify (set_running_task (Some t))
    else if type_is ty FLUSHING then
      print MsgCancelFlushFilter;;
      t ← create_task (FW_start None); modify (set_running_task (Some t))
    else ret tt
  else
    if super_long_pressed then
      t ← create_task LF_start; modify (set_running_task (Some t));;
      print MsgLongFlushing
    else if long_pressed then
      t ← create_task (FW_start (Some (60 * 60))); modify (set_running_task (Some t));;
      print MsgLongFiltering
    else
      t ← create_task (FW_start None); modify (set_running_task (Some t));;
      print MsgFiltering.

(** Top of the [while True] loop, with the level of the button at this
    instant: wait for the press, and once it is there read the counter and
    wait for the release. *)
Definition wait_for_press (pressed : bool) : M (button_pc * Z) :=
  if pressed then
    ms_start ← ticks_ms;
    sleep_ms 50 (HB_wait_release ms_start)
  else sleep_ms 50 HB_wait_press.

(** Resume [handle_button]; [pressed] is [is_button_pressed()] now. *)
Definition handle_button (pressed : bool) (p : button_pc) : M (button_pc * Z) :=
  match p with
  | HB_start | HB_wait_press => wait_for_press pressed
  | HB_wait_release ms_start =>
      if pressed then sleep_ms 50 (HB_wait_release ms_start)
      else
        ms_end ← ticks_ms;
        let ms_duration := ms_end - ms_start in
        let super_long_pressed := super_long_pressed_of ms_duration in
        let long_pressed := long_pressed_of ms_duration in
        if super_long_pressed then
          print MsgSuperLongPress;;
          beep_begin;; sleep_ms 1000 (HB_beep super_long_pressed long_pressed)
        else if long_pressed then
          print MsgLongPress;;
          beep_begin;; sleep_ms 500 (HB_beep super_long_pressed long_pressed)
        else
          print MsgShortPress;;
          beep_begin;; sleep_ms 200 (HB_beep super_long_pressed long_pressed)
  | HB_beep super_long_pressed long_pressed =>
      buzzer_duty_u16 0;;
      decide_action super_long_pressed long_pressed;;
      wait_for_press pressed
  end.

(** ** The monitor loop *)

Definition auto_flush_needed (w : world) : bool :=
  config_get (CONFIG w) "auto_flush_sec" <? clock w / 1000 - Z.max (last_flush w) (last_filtering w).

(** One turn of the [while True] loop of [check_auto_flush], after its
    [await uasyncio.sleep(1)]. *)
Definition check_auto_flush_body : M unit :=
  done ← get task_done;
  if negb done then ret tt           (* continue *)
  else
    needed ← get auto_flush_needed;
    when needed
      (print MsgAutoFlushing;;
       t ← create_task AF_start; modify (set_running_task (Some t))).

Definition check_auto_flush (p : auto_pc) : M (auto_pc * Z) :=
  match p with
  | AC_start => sleep 1 AC_sleep
  | AC_sleep => check_auto_flush_body;; sleep 1 AC_sleep
  end.

(** ** The event loop *)

(** One turn of the loop: which coroutine runs, and what the clock (and, for
    the button loop, the button) reads when it does. *)
Inductive label :=
| RunTask (i : nat) (now : Z)
| RunButton (pressed : bool) (now : Z)
| RunAuto (now : Z).

(** A wait of [ms] milliseconds that starts now; a negative wait is no wait. *)
Definition due (w : world) (ms : Z) : Z := clock w + Z.max 0 ms.

(** The clock never runs backwards, and a coroutine runs only when it is
    due; it may run late.  A cancelled task was brought forward by
    [cancel_task], so it is due at once. *)
Definition step (l : label) (w : world) : option world :=
  match l with
  | RunTask i now =>
      match tasks w !! i with
      | Some t =>
          if (clock w <=? now) && (t_wake t <=? now) && negb (pc_done (t_pc t)) then
            match (if t_cancel t then throw (t_pc t) else resume (t_pc t)) (set_clock now w) with
            | ((p, ms), w') => Some (set_tasks (<[i := Task p (due w' ms) false]> (tasks w')) w')
            end
          else None
      | None => None
      end
  | RunButton pressed now =>
      if (clock w <=? now) && (snd (button_co w) <=? now) then
        match handle_button pressed (fst (button_co w)) (set_clock now w) with
        | ((p, ms), w') => Some (set_button_co (p, due w' ms) w')
        end
      else None
  | RunAuto now =>
      if (clock w <=? now) && (snd (auto_co w) <=? now) then
        match check_auto_flush (fst (auto_co w)) (set_clock now w) with
        | ((p, ms), w') => Some (set_auto_co (p, due w' ms) w')
        end
      else None
  end.

Fixpoint run (ls : list label) (w : world) : option world :=
  match ls with
  | [] => Some w
  | l :: ls' =>
      match step l w with
      | Some w' => run ls' w'
      | None => None
      end
  end.

(** ** Start-up *)

Definition default_CONFIG : gmap string Z :=
  <["pre_flush_sec" := 10]>
  (<["post_flush_sec" := 30]>
  (<["long_flush_sec" := 15 * 60]>
  (<["disposal_sec" := 60]>
  (<["filter_sec" := 12 * 60]>
  (<["auto_flush_sec" := 8 * 60 * 60]>
  (<["water_clean_sec" := 5 * 60]>
  (<["buzzer_frequency" := 1500]>
  (<["pump_switch_delay" := 1000]> ∅)))))))).

(** The nine keys of [CONFIG]. *)
Definition config_keys : list string :=
  ["pre_flush_sec"; "post_flush_sec"; "long_flush_sec"; "disposal_sec"; "filter_sec";
   "auto_flush_sec"; "water_clean_sec"; "buzzer_frequency"; "pump_switch_delay"].

(** The module-level assignments: the world when the script is loaded at
    clock [t0] with the file system holding [f].  The output pins have not
    been written yet. *)
Definition power_on (t0 : Z) (f : option file_content) : world :=
  World (Pins false false false false false 0 0)
    default_CONFIG 0 0 0 0 None None f [] t0 [] (HB_start, t0) (AC_start, t0).

(** [init]; an exception of [read_config] or of [CONFIG.update] escapes. *)
Definition init (w : world) : result world :=
  let w1 := exec (print MsgInit;; set_pump false;; close_valves) w in
  match read_config w1 with
  | Ok (Dict d) =>
      (* CONFIG.update(d): the keys of [d] win *)
      Ok (exec (modify (fun w => set_CONFIG (d ∪ CONFIG w) w);;
                c ← get CONFIG; print (MsgConfigRead c)) w1)
  | Ok (NotDict e) => Raise e         (* CONFIG.update raises *)
  | Raise e => Raise e
  end.

(** A wait while no other coroutine exists: [run_until_complete] of
    [greeting_beeps] only lets time pass. *)
Definition pass_time (ms : Z) : M unit :=
  modify (fun w => set_clock (clock w + ms) w).

Definition greeting_beeps : M unit :=
  f ← cfg "buzzer_frequency"; buzzer_freq f;;
  buzzer_duty_u16 BEEP_ON;; pass_time 100;;
  buzzer_duty_u16 0;; pass_time 100;;
  buzzer_duty_u16 BEEP_ON;; pass_time 500;;
  buzzer_duty_u16 0.

(** The last lines of the script: [init], the greeting, and the two loops
    handed to the event loop. *)
Definition main (t0 : Z) (f : option file_content) : result world :=
  match init (power_on t0 f) with
  | Ok w =>
      let w' := exec greeting_beeps w in
      Ok (set_auto_co (AC_start, clock w') (set_button_co (HB_start, clock w') w'))
  | Raise e => Raise e
  end.

(** The worlds the running program can be in. *)
Definition reachable (w : world) : Prop :=
  exists t0 f w0 ls, main t0 f = Ok w0 /\ run ls w0 = Some w.

(** ** A scheduler

    [step] lets any due coroutine run.  The event loop itself always runs the
    coroutine that is due first, as soon as it is due.  [simulate] does that,
    reading the button from a signal: the list of intervals [(a, b)] during
    which the button is held down, from [a] up to but not including [b]. *)

Definition signal := list (Z * Z).

Definition pressed_at (s : signal) (t : Z) : bool :=
  existsb (fun ab => (fst ab <=? t) && (t <? snd ab)) s.

(** The unfinished task that is due first, with its time; among tasks due at
    the same time the one created first. *)
Fixpoint first_task (i : nat) (ts : list task) : option (nat * Z) :=
  match ts with
  | [] => None
  | t :: ts' =>
      let rest := first_task (S i) ts' in
      if pc_done (t_pc t) then rest
      else match rest with
           | Some (j, tj) => if tj <? t_wake t then Some (j, tj) else Some (i, t_wake t)
           | None => Some (i, t_wake t)
           end
  end.

(** The next turn of the loop: the earliest of the tasks, the button loop and
    the monitor loop (in that order when they are due together), run when it
    is due, or now if that time has passed. *)
Definition next_label (s : signal) (w : world) : label :=
  let tb := snd (button_co w) in
  let ta := snd (auto_co w) in
  let loops :=
    if ta <? tb then RunAuto (Z.max (clock w) ta)
    else RunButton (pressed_at s (Z.max (clock w) tb)) (Z.max (clock w) tb) in
  match first_task 0 (tasks w) with
  | Some (i, ti) =>
      if ti <=? Z.min tb ta then RunTask i (Z.max (clock w) ti) else loops
  | None => loops
  end.

Definition label_time (l : label) : Z :=
  match l with
  | RunTask _ now | RunButton _ now | RunAuto now => now
  end.

(** Run the loop until the clock would pass [deadline]; [fuel] bounds the
    number of turns. *)
Fixpoint simulate (s : signal) (deadline : Z) (fuel : nat) (w : world) : world :=
  match fuel with
  | O => w
  | S fuel' =>
      let l := next_label s w in
      if label_time l <=? deadline then
        match step l w with
        | Some w' => simulate s deadline fuel' w'
        | None => w
        end
      else w
  end.

(** The turns [simulate] takes, as labels for [run]. *)
Fixpoint schedule (s : signal) (deadline : Z) (fuel : nat) (w : world) : list label :=
  match fuel with
  | O => []
  | S fuel' =>
      let l := next_label s w in
      if label_time l <=? deadline then
        match step l w with
        | Some w' => l :: schedule s deadline fuel' w'
        | None => []
        end
      else []
  end.

(** ** Scenarios *)

(** The Pico's clock reads 2021-01-01 00:00:00 when it is powered on; in
    milliseconds since the epoch: *)
Definition T0 : Z := 1609459200000.

(** The loops start when the greeting is over, 700 ms after power-on.
    Times in the scenarios count from there. *)
Definition started_with (f : option file_content) : world :=
  match main T0 f with
  | Ok w => w
  | Raise _ => power_on T0 f
  end.

Definition at_ms (ms : Z) : Z := T0 + 700 + ms.

Definition hold (from_ms to_ms : Z) : Z * Z := (at_ms from_ms, at_ms to_ms).

(** The world [ms] milliseconds after the loops started, for a configuration
    file and a button signal.  The loop takes fewer turns than milliseconds
    pass (for the worlds used below: lemma [scenario_worlds_complete]). *)
Definition world_with (f : option file_content) (s : signal) (ms : Z) : world :=
  simulate s (at_ms ms) (Z.to_nat ms) (started_with f).

(** Without a configuration file: *)
Definition started : world := started_with None.
Definition world_at (s : signal) (ms : Z) : world := world_with None s ms.

(** The world after one more turn. *)
Definition after_turn (l : label) (w : world) : world := default w (step l w).

(** A configuration file with a key the program does not know. *)
Definition file_with_owner : gmap string Z := <["owner" := 7]> ∅.

(** A tap of 100 ms starts a filtration.  Nothing was flushed since power-on,
    so it begins with the pre-flush (1 s, 10 s, 60 s) and filters from second
    72 on, for the default 720 s. *)
Definition tap_to_filter : signal := [hold 300 400].

(** ... and the button is held for 1 s, 45 s into the filtration. *)
Definition long_press_while_filtering : signal := [hold 300 400; hold 115100 116100].

(** ... or tapped again while the filtration runs. *)
Definition tap_while_filtering : signal := [hold 300 400; hold 100000 100100].

(** ... or held for 6 s during the pre-flush of the filtration. *)
Definition super_long_press_in_pre_flush : signal := [hold 300 400; hold 2000 8000].

(** A filtration is replaced by a long flush (6 s hold), and the long flush
    by a new filtration (tap) 32.5 s later, while the cleanup of the first
    filtration is still waiting to close the valves. *)
Definition restart_during_cleanup : signal :=
  [hold 300 400; hold 80000 86000; hold 119200 119300].

(** What one looks at in a world. *)
Definition pump_on (w : world) : bool := PIN_PUMP (hw w).
Definition valves (w : world) : option layout := layout_of (hw w).
Definition pcs (w : world) : list pc := map t_pc (tasks w).

(** ** Notions used in the statements *)

(** What [_set_valves] writes for the two presets that stop the water. *)
Definition writes_closed : list event :=
  [PinWrite Valve1 true; PinWrite Valve2 true; PinWrite Valve3 true; PinWrite Valve4 true].
Definition writes_drain : list event :=
  [PinWrite Valve1 true; PinWrite Valve2 false; PinWrite Valve3 true; PinWrite Valve4 true].

(** What a poll of the monitor does when it starts the automatic flush. *)
Definition start_auto_flush (w : world) : world :=
  set_running_task (Some (length (tasks w)))
    (set_tasks (tasks w ++ [Task AF_start (clock w) false])
       (set_console (console w ++ [Print MsgAutoFlushing]) w)).

(** The task [t] after [cancel()] was called on it when the clock read
    [now]: same place, due at once, the exception pending. *)
Definition cancelled (now : Z) (t : task) : task :=
  Task (t_pc t) (Z.min (t_wake t) now) true.

(** The waits inside the [try] block of [filter_water]: the pump switch
    delay, the filtration itself, and the beeps that end it. *)
Definition in_try (p : pc) : bool :=
  match p with
  | FW_psd _ | FW_filter | FW_beep1 | FW_beep2 | FW_beep3 | FW_beep4 | FW_beep5 => true
  | _ => false
  end.

(** The waits of [pre_flush_filter] inside [filter_water]. *)
Definition in_pre_flush (p : pc) : bool :=
  match p with
  | FW_pre_psd _ | FW_pre _ | FW_disposal _ => true
  | _ => false
  end.

(** When the next turn of the scheduler is due, in milliseconds after the
    loops started. *)
Definition next_turn_ms (s : signal) (w : world) : Z :=
  label_time (next_label s w) - at_ms 0.

(** The last [n] things the program did. *)
Definition last_events (n : nat) (w : world) : list event :=
  skipn (length (console w) - n) (console w).

(** One turn of the loop leaves [CONFIG] alone or stores a new [filter_sec]. *)
Definition config_step (c c' : gmap string Z) : Prop :=
  c' = c \/ exists v, c' = <["filter_sec" := v]> c.

(** Over a run every key but [filter_sec] keeps its value, and [filter_sec]
    stays present. *)
Definition config_kept (c c' : gmap string Z) : Prop :=
  (forall k, k <> "filter_sec" -> c' !! k = c !! k) /\
  (is_Some (c !! "filter_sec") -> is_Some (c' !! "filter_sec")).

(** ** Further notions *)

(** Start-up from pins that were left with the pump on. *)
Definition after_init_with_pump_on : world :=
  match init (set_hw (Pins false false false false true 0 0) (power_on T0 None)) with
  | Ok w => w
  | Raise _ => power_on T0 None
  end.

(** The end of a task's turn: the task is filed under its handle with the
    place it stopped at and the time it is due. *)
Definition finish_turn (i : nat) (r : pc * Z * world) : world :=
  set_tasks (<[i := Task (fst (fst r)) (due (snd r) (snd (fst r))) false]> (tasks (snd r)))
    (snd r).

(** What [_set_valves] writes for the three presets that let water through. *)
Definition writes_flush : list event :=
  [PinWrite Valve1 false; PinWrite Valve2 false; PinWrite Valve3 true; PinWrite Valve4 true].
Definition writes_disposal : list event :=
  [PinWrite Valve1 false; PinWrite Valve2 true; PinWrite Valve3 true; PinWrite Valve4 false].
Definition writes_filter : list event :=
  [PinWrite Valve1 false; PinWrite Valve2 true; PinWrite Valve3 false; PinWrite Valve4 true].

(** What [finish_beeps] does to the buzzer. *)
Definition finish_beeps_events (f : Z) : list event :=
  [BuzzerFreq f; BuzzerDuty BEEP_ON; BuzzerDuty 0; BuzzerDuty BEEP_ON; BuzzerDuty 0;
   BuzzerDuty BEEP_ON; BuzzerDuty 0].

(** The cleanup of [filter_water]: post-flush, pump off, drain, close. *)
Definition cleanup_events (post_flush_sec : Z) : list event :=
  [Print (MsgPostFlush post_flush_sec)] ++ writes_flush ++
  [Print (MsgPump false); PinWrite Pump false; Print MsgClosingInlet] ++ writes_drain ++
  [Print MsgClosingValves] ++ writes_closed ++ [Print MsgNewline].

(** A filtration is cancelled by a second tap (its cleanup ends after
    133.3 s), and a third tap follows while the water is still clean. *)
Definition tap_after_cleanup : signal :=
  [hold 300 400; hold 100000 100100; hold 140000 140100].

(** The sequence a press starts: [long_flush_filter()], [filter_water(60 * 60)]
    or [filter_water()]. *)
Definition sequence_for (p : press) : pc :=
  match p with
  | SuperLong => LF_start
  | Long => FW_start (Some (60 * 60))
  | Short => FW_start None
  end.

(** The five relay outputs of a world, without the buzzer. *)
Definition relays (w : world) : bool * bool * bool * bool * bool :=
  (PIN_VALVE1 (hw w), PIN_VALVE2 (hw w), PIN_VALVE3 (hw w), PIN_VALVE4 (hw w),
   PIN_PUMP (hw w)).

(** The layout a sequence has set before the wait after which it switches
    the pump on. *)
Definition layout_before_pump (p : pc) : option layout :=
  match p with
  | AF_psd1 | FW_pre_psd _ => Some Flush
  | FW_psd _ => Some Filter
  | _ => None
  end.

(** The waits inside a [try] block whose [finally] sets [last_flush]: those
    of [auto_flush_filter] and [long_flush_filter], and the post-flush in the
    cleanup of [filter_water]. *)
Definition in_flush_try (p : pc) : bool :=
  match p with
  | AF_psd1 | AF_pre | AF_disposal | AF_post | AF_psd2 | AF_drain | LF_flush | FW_post => true
  | _ => false
  end.

(** No time stamp lies in the future of [time.time()]. *)
Definition stamps_ok (w : world) : Prop :=
  last_flush w <= clock w / 1000 /\ last_filtering w <= clock w / 1000 /\
  start_filtering w <= clock w / 1000.

(** ** The button test (test-hardware/test_button.py)

    A stand-alone script that toggles the pump relay at each press of the
    button.  Its state is the pump pin and the console. *)
Module test_button.

Inductive line :=
| InitialPumpOff
| ButtonPressed
| PumpNowOn
| PumpNowOff.

Record state := State {
  PIN_PUMP : bool;
  out : list line
}.

Definition print (l : line) (s : state) : state := State (PIN_PUMP s) (out s ++ [l]).

(** The module-level statements before the loop. *)
Definition initial : state := print InitialPumpOff (State false []).

Definition toggle_relay (s : state) : state :=
  let state := PIN_PUMP s in
  let s := State (negb state) (out s) in
  if state then print PumpNowOn s else print PumpNowOff s.

(** One turn of the main loop, with the level of the button; the result
    carries the milliseconds slept. *)
Definition turn (pressed : bool) (s : state) : state * Z :=
  if pressed then (toggle_relay (print ButtonPressed s), 300 + 50)
  else (s, 50).

(** The loop over the readings of the button, with the time slept in all. *)
Fixpoint loop (readings : list bool) (s : state) : state * Z :=
  match readings with
  | [] => (s, 0)
  | pressed :: rest =>
      let (s1, ms1) := turn pressed s in
      let (s2, ms2) := loop rest s1 in
      (s2, ms1 + ms2)
  end.

(** The pump as the last line of the console reports it, if that line
    reports it. *)
Definition reported (s : state) : option bool :=
  match last (out s) with
  | Some PumpNowOn => Some true
  | Some PumpNowOff | Some InitialPumpOff => Some false
  | _ => None
  end.

End test_button.

(** The length of the beep that answers a press, in milliseconds:
    [short_beep], [long_beep], [super_long_beep]. *)
Definition beep_ms (p : press) : Z :=
  match p with
  | Short => 200
  | Long => 500
  | SuperLong => 1000
  end.

(** What the button loop prints when it has classified a press. *)
Definition press_msg (p : press) : msg :=
  match p with
  | Short => MsgShortPress
  | Long => MsgLongPress
  | SuperLong => MsgSuperLongPress
  end.

(** What it prints after it has started a sequence from idle. *)
Definition started_msg (p : press) : msg :=
  match p with
  | Short => MsgFiltering
  | Long => MsgLongFiltering
  | SuperLong => MsgLongFlushing
  end.

(** The end of a turn of the button loop. *)
Definition finish_button (r : button_pc * Z * world) : world :=
  set_button_co (fst (fst r), due (snd r) (snd (fst r))) (snd r).

(** Times of successive polls of the button loop after the one at [prev]:
    each comes 50 ms or more after the one before. *)
Fixpoint spaced (prev : Z) (ts : list Z) : Prop :=
  match ts with
  | [] => True
  | t :: ts' => prev + 50 <= t /\ spaced t ts'
  end.

(** The world after a poll at [t] that found the button still down, when it
    went down at the counter reading [ms_start]: only the clock and the
    button loop's own wait have moved. *)
Definition holding (ms_start t : Z) (w : world) : world :=
  set_button_co (HB_wait_release ms_start, t + Z.max 0 50) (set_clock t w).

(** * Properties *)

(** Run a piece of the program on a world given field by field. *)
Ltac exec_M :=
  cbv beta iota zeta delta
    [mbind M_bind bind mret M_ret ret get modify when exec emit print time_time ticks_ms
     cfg pin_value pin_set buzzer_freq buzzer_duty_u16 write_config _set_valves set_pump
     close_valves close_inlet_valve set_valves_to_flush set_valves_to_disposal
     set_valves_to_filter sleep_ms sleep finished create_task running_task_cancel
     record_last_flush record_last_filtering pre_flush_filter_begin filter_begin
     filter_finally_begin resume throw beep_begin decide_action wait_for_press
     handle_button check_auto_flush_body check_auto_flush greeting_beeps pass_time
     set_hw set_CONFIG set_last_flush set_last_filtering set_start_filtering
     set_running_task set_running_task_type set_CONFIG_FILE set_console set_clock
     set_tasks set_button_co set_auto_co
     hw CONFIG last_flush last_reflush last_filtering start_filtering running_task
     running_task_type CONFIG_FILE console clock tasks button_co auto_co
     PIN_VALVE1 PIN_VALVE2 PIN_VALVE3 PIN_VALVE4 PIN_PUMP BUZZER_freq BUZZER_duty
     pump_on valves layout_of fst snd negb].

Ltac open_world w := destruct w as [[] ]; cbn in *.

(** ** Press classification *)

Lemma classify_cases d :
  classify d = if d <=? 800 then Short else if d <=? 4999 then Long else SuperLong.
Proof.
  unfold classify, press_of_flags, super_long_pressed_of, long_pressed_of.
  destruct (Z.leb_spec 5000 d), (Z.ltb_spec 800 d), (Z.ltb_spec d 5000),
    (Z.leb_spec d 800), (Z.leb_spec d 4999); simpl; try reflexivity; lia.
Qed.

(** C5, as the code has it: a press of exactly 800 ms is short.  The button
    is held from 300 ms to 1100 ms after the loops started; both edges fall
    on polls of the button loop, so the measured duration is 800 ms, and the
    loop goes on to the short beep with both flags down. *)
Lemma press_of_800_ms_is_short :
  classify 800 = Short /\
  fst (button_co (world_at [hold 300 1100] 1099)) = HB_wait_release ((at_ms 300) mod TICKS_PERIOD) /\
  fst (button_co (world_at [hold 300 1100] 1100)) = HB_beep false false /\
  snd (button_co (world_at [hold 300 1100] 1100)) = at_ms 1300.
Proof. vm_compute. auto. Qed.

(** C5 (amended): the measured duration [ms_end - ms_start] is classified as
    short up to and including 800 ms, long from 801 ms to 4999 ms, and
    super-long from 5000 ms on; 799, 800, 4999 and 5000 ms are short, short,
    long and super-long.  This is the class the button loop acts on when the
    release is seen. *)
Theorem press_classification :
  (forall d, classify d = if d <=? 800 then Short else if d <=? 4999 then Long else SuperLong) /\
  (classify 799 = Short /\ classify 800 = Short /\ classify 4999 = Long /\
   classify 5000 = SuperLong) /\
  (forall ms_start w, exists sl l ms w',
      handle_button false (HB_wait_release ms_start) w = (HB_beep sl l, ms, w') /\
      press_of_flags sl l = classify (clock w mod TICKS_PERIOD - ms_start)).
Proof.
  split; [exact classify_cases|]. split; [by vm_compute|].
  intros ms_start w. open_world w.
  unfold classify. exec_M.
  destruct (super_long_pressed_of _) eqn:Es; [|destruct (long_pressed_of _) eqn:El];
    do 4 eexists; (split; [reflexivity|]); unfold press_of_flags;
    rewrite ?Es, ?El; reflexivity.
Qed.

(** ** Safety shut-down *)

(** C6: [close_valves] and [close_inlet_valve] are the two calls that set a
    layout other than Flush, Disposal or Filter.  When the pump pin reads ON
    at the call, each prints the safety notice and writes the pump pin OFF
    before it writes any valve pin; afterwards the pump is off and the valves
    are in the Closed, respectively Drain, layout. *)
Theorem safety_shut_down (w : world) (Hon : pump_on w = true) :
  (console (exec close_valves w) =
     console w ++ [Print MsgSafetyShutDown; PinWrite Pump false] ++ writes_closed /\
   pump_on (exec close_valves w) = false /\
   valves (exec close_valves w) = Some Closed) /\
  (console (exec close_inlet_valve w) =
     console w ++ [Print MsgSafetyShutDown; PinWrite Pump false] ++ writes_drain /\
   pump_on (exec close_inlet_valve w) = false /\
   valves (exec close_inlet_valve w) = Some Drain).
Proof.
  open_world w. unfold pump_on in Hon. cbn in Hon. subst.
  exec_M. rewrite <- !app_assoc. cbn. auto.
Qed.

(** The theorem at the world 73 s into the tap scenario, where the pump runs
    in the Filter layout. *)
Lemma safety_shut_down_witness :
  pump_on (world_at tap_to_filter 73000) = true /\
  valves (exec close_valves (world_at tap_to_filter 73000)) = Some Closed /\
  valves (exec close_inlet_valve (world_at tap_to_filter 73000)) = Some Drain.
Proof.
  assert (Hon : pump_on (world_at tap_to_filter 73000) = true) by (vm_compute; reflexivity).
  split; [exact Hon|].
  pose proof (safety_shut_down (world_at tap_to_filter 73000) Hon) as H.
  split; [exact (proj2 (proj2 (proj1 H))) | exact (proj2 (proj2 (proj2 H)))].
Defined.

(** With the pump off the two calls only write the valve pins. *)
Lemma close_with_pump_off (w : world) :
  pump_on w = false ->
  console (exec close_valves w) = console w ++ writes_closed /\
  console (exec close_inlet_valve w) = console w ++ writes_drain.
Proof.
  intros Hoff. open_world w. unfold pump_on in Hoff. cbn in Hoff. subst.
  exec_M. rewrite <- !app_assoc. cbn. auto.
Qed.

(** ** Start of a filtration *)

(** C7: when [filter_water] starts, it goes through [pre_flush_filter] first
    exactly when the time since the later of [last_flush] and
    [last_filtering] exceeds [water_clean_sec]; otherwise it sets the Filter
    layout at once.  So a flush or a filtration that ended within
    [water_clean_sec] is enough to skip the pre-flush.  The pre-flush is the
    first four turns of the task: the first sets the Flush layout and waits
    the pump switch delay; the second switches the pump on and waits
    [pre_flush_sec]; the third sets the Disposal layout and waits
    [disposal_sec]; the fourth goes straight on to the filtration (Filter
    layout, [running_task_type] ['FILTERING'], [start_filtering] taken) with
    the pump still on, without a flush or a closing of the valves in
    between.  Each of these turns does what is said in whatever world it
    runs, and nothing else to the console. *)
Theorem pre_flush_iff_not_clean (w : world) (arg : option Z) :
  let next := fst (fst (resume (FW_start arg) w)) in
  let w' := snd (resume (FW_start arg) w) in
  let now := clock w / 1000 in
  let clean := config_get (CONFIG w) "water_clean_sec" in
  let duration_sec := default (config_get (CONFIG w) "filter_sec") arg in
  (next = FW_pre_psd duration_sec /\ valves w' = Some Flush /\
   running_task_type w' = Some FLUSHING
   <-> now - Z.max (last_flush w) (last_filtering w) > clean) /\
  (next = FW_psd duration_sec /\ valves w' = Some Filter /\
   running_task_type w' = Some FILTERING /\ start_filtering w' = now
   <-> now - Z.max (last_flush w) (last_filtering w) <= clean) /\
  (now - last_flush w <= clean \/ now - last_filtering w <= clean ->
   next = FW_psd duration_sec) /\
  (* the first turn, in either case *)
  snd (fst (resume (FW_start arg) w)) = config_get (CONFIG w) "pump_switch_delay" /\
  pump_on w' = pump_on w /\
  console w' = console w ++
    (if flush_needed w
     then [Print (MsgPreFlush (config_get (CONFIG w) "pre_flush_sec"))] ++ writes_flush
     else [Print (MsgFilterWater duration_sec)] ++ writes_filter) /\
  (* the turns of the pre-flush that follow *)
  (forall (d : Z) (v : world),
     let r := resume (FW_pre_psd d) v in
     fst r = (FW_pre d, 1000 * config_get (CONFIG v) "pre_flush_sec") /\
     pump_on (snd r) = true /\ valves (snd r) = valves v /\
     console (snd r) = console v ++ [Print (MsgPump true); PinWrite Pump true]) /\
  (forall (d : Z) (v : world),
     let r := resume (FW_pre d) v in
     fst r = (FW_disposal d, 1000 * config_get (CONFIG v) "disposal_sec") /\
     valves (snd r) = Some Disposal /\ pump_on (snd r) = pump_on v /\
     console (snd r) = console v ++
       [Print (MsgDispose (config_get (CONFIG v) "disposal_sec"))] ++ writes_disposal) /\
  (forall (d : Z) (v : world),
     let r := resume (FW_disposal d) v in
     fst r = (FW_psd d, config_get (CONFIG v) "pump_switch_delay") /\
     valves (snd r) = Some Filter /\ pump_on (snd r) = pump_on v /\
     running_task_type (snd r) = Some FILTERING /\
     start_filtering (snd r) = clock v / 1000 /\
     console (snd r) = console v ++ [Print (MsgFilterWater d)] ++ writes_filter).
Proof.
  cbv zeta. repeat match goal with |- _ /\ _ => split end.
  1-6: open_world w; exec_M; unfold flush_needed; cbn;
    destruct (Z.ltb_spec (config_get CONFIG0 "water_clean_sec")
                (clock0 / 1000 - Z.max last_flush0 last_filtering0)) as [Hlt|Hge];
    exec_M; cbn; rewrite <- ?app_assoc; try reflexivity.
  - split; [lia|auto].
  - split; [intros [? _]; discriminate | lia].
  - split; [intros [? _]; discriminate | lia].
  - split; [lia|auto].
  - lia.
  - intros d v. destruct v as [[] ]. exec_M. cbn. rewrite <- !app_assoc. auto.
  - intros d v. destruct v as [[] ]. exec_M. cbn. rewrite <- !app_assoc. auto.
  - intros d v. destruct v as [[] ]. exec_M. cbn. rewrite <- !app_assoc. auto 10.
Qed.

(** The theorem in the restart scenario: the second filtration is created
    (119.5 s) right after a post-flush ended (117 s), and skips the pre-flush. *)
Lemma pre_flush_iff_not_clean_witness :
  let w := world_at restart_during_cleanup 119499 in
  running_task w = Some 1%nat /\
  clock w / 1000 - last_flush w <= config_get (CONFIG w) "water_clean_sec" /\
  fst (fst (resume (FW_start None) w)) = FW_psd 720.
Proof.
  intros w.
  assert (Hc : clock w / 1000 - last_flush w <= config_get (CONFIG w) "water_clean_sec")
    by (vm_compute; discriminate).
  split; [vm_compute; reflexivity|]. split; [exact Hc|].
  exact (proj1 (proj2 (proj2 (pre_flush_iff_not_clean w None))) (or_introl Hc)).
Defined.


(** ** The monitor *)

Lemma check_auto_flush_body_eq (w : world) :
  exec check_auto_flush_body w =
  if task_done w && auto_flush_needed w then start_auto_flush w else w.
Proof.
  unfold exec, check_auto_flush_body, start_auto_flush.
  cbv beta iota zeta delta [mbind M_bind bind mret M_ret ret get modify when snd fst negb].
  destruct (task_done w); cbn [negb andb]; [|reflexivity].
  destruct (auto_flush_needed w); [|reflexivity].
  open_world w. exec_M. reflexivity.
Qed.

Lemma app_one_ne {A} (l : list A) (x : A) : l ++ [x] <> l.
Proof.
  intros H. apply (f_equal length) in H. rewrite length_app in H. simpl in H. lia.
Qed.

(** C8: [check_auto_flush] waits one second before every poll.  A poll
    creates the [auto_flush_filter] task, and puts it in [running_task],
    exactly when [running_task] is done and the time since the later of
    [last_flush] and [last_filtering] exceeds [auto_flush_sec]; in every
    other case it changes nothing, so no flush is started while a task is
    running. *)
Theorem auto_flush_monitor (w : world) :
  let w' := exec check_auto_flush_body w in
  let elapsed := clock w / 1000 - Z.max (last_flush w) (last_filtering w) in
  let wanted := task_done w = true /\ elapsed > config_get (CONFIG w) "auto_flush_sec" in
  check_auto_flush AC_start w = (AC_sleep, 1000, w) /\
  check_auto_flush AC_sleep w = (AC_sleep, 1000, w') /\
  (tasks w' = tasks w ++ [Task AF_start (clock w) false] /\
   running_task w' = Some (length (tasks w)) <-> wanted) /\
  (w' = w <-> ~ wanted) /\
  (task_done w = false -> w' = w).
Proof.
  intros w' elapsed wanted.
  assert (Hw' : w' = if task_done w && auto_flush_needed w then start_auto_flush w else w)
    by apply check_auto_flush_body_eq.
  assert (Hneed : auto_flush_needed w = true <-> elapsed > config_get (CONFIG w) "auto_flush_sec").
  { unfold auto_flush_needed, elapsed. rewrite Z.ltb_lt. lia. }
  assert (Hwanted : task_done w && auto_flush_needed w = true <-> wanted).
  { unfold wanted. rewrite andb_true_iff, Hneed. reflexivity. }
  split; [reflexivity|].
  split.
  { unfold check_auto_flush, w', exec.
    cbv beta iota zeta delta [mbind M_bind bind sleep ret].
    destruct (check_auto_flush_body w) as [[] w1]. reflexivity. }
  destruct (task_done w && auto_flush_needed w) eqn:E; rewrite Hw'.
  - assert (Hyes : wanted) by (apply Hwanted; reflexivity).
    split; [|split].
    + split; [intros _; exact Hyes | intros _; split; reflexivity].
    + split; [|intros Hn; destruct (Hn Hyes)].
      intros Heq. apply (f_equal tasks) in Heq. cbn in Heq.
      destruct (app_one_ne _ _ Heq).
    + intros Hd. rewrite Hd in E. discriminate.
  - assert (Hno : ~ wanted) by (intros Hy; apply Hwanted in Hy; discriminate).
    split; [|split].
    + split; [|intros Hy; destruct (Hno Hy)].
      intros [Ht _]. symmetry in Ht. destruct (app_one_ne _ _ Ht).
    + split; [intros _; exact Hno | reflexivity].
    + reflexivity.
Qed.

(** The theorem while the filtration of the tap scenario runs: the poll at
    second 73 leaves the world as it is. *)
Lemma auto_flush_monitor_witness :
  let w := world_at tap_to_filter 72999 in
  task_done w = false /\ exec check_auto_flush_body w = w.
Proof.
  intros w.
  assert (Hrun : task_done w = false) by (vm_compute; reflexivity).
  split; [exact Hrun|].
  exact (proj2 (proj2 (proj2 (proj2 (auto_flush_monitor w)))) Hrun).
Defined.

(** A turn of the monitor loop sets its next turn one second later. *)
Lemma monitor_period (now : Z) (w w' : world) :
  step (RunAuto now) w = Some w' -> snd (auto_co w') = now + 1000.
Proof.
  unfold step. destruct (_ && _); [|discriminate].
  assert (Hc : clock (exec check_auto_flush_body (set_clock now w)) = now).
  { rewrite check_auto_flush_body_eq. destruct (_ && _); reflexivity. }
  unfold check_auto_flush, exec in *.
  destruct (fst (auto_co w)); cbv beta iota zeta delta [mbind M_bind bind sleep ret] in *.
  - intros [= <-]. reflexivity.
  - destruct (check_auto_flush_body _) as [[] w1]. intros [= <-].
    cbn in *. unfold due. rewrite Hc. reflexivity.
Qed.

(** ** Reading the configuration *)

(** Start-up, for a file that [read_config] accepts. *)
Lemma main_ok (t0 : Z) (f : option file_content) (d : gmap string Z) :
  read_config (power_on t0 f) = Ok (Dict d) ->
  exists w, main t0 f = Ok w /\ CONFIG w = d ∪ default_CONFIG /\
            CONFIG_FILE w = f /\ tasks w = [] /\ running_task w = None /\
            clock w = t0 + 700.
Proof.
  unfold main, init, read_config, power_on. exec_M. intros Hr. rewrite Hr.
  exec_M. eexists. split; [reflexivity|].
  cbn [CONFIG CONFIG_FILE tasks clock running_task].
  repeat (split; [reflexivity|]). lia.
Qed.

(** C9, as the code has it: a file that is there but is not JSON makes
    [ujson.loads] raise [ValueError]; [read_config] catches [OSError] only, so
    the exception leaves [read_config], [init] and the script. *)
Lemma corrupt_config_file_raises :
  read_config (power_on T0 (Some Garbage)) = Raise ValueError /\
  init (power_on T0 (Some Garbage)) = Raise ValueError /\
  main T0 (Some Garbage) = Raise ValueError.
Proof. vm_compute. auto. Qed.

(** C9 (amended): when there is no configuration file, [read_config] returns
    the empty dictionary, start-up does not raise, and [CONFIG] keeps the
    compiled-in defaults. *)
Theorem missing_config_file_keeps_defaults (t0 : Z) :
  (forall w, read_config (set_CONFIG_FILE None w) = Ok (Dict ∅)) /\
  exists w, main t0 None = Ok w /\ CONFIG w = default_CONFIG /\ CONFIG_FILE w = None.
Proof.
  split; [reflexivity|].
  destruct (main_ok t0 None ∅ eq_refl) as (w & Hm & Hc & Hf & _).
  exists w. rewrite (left_id_L ∅ (∪)) in Hc. auto.
Qed.

(** ** The turns of a cancelled filtration *)

Lemma leb_true a b : a <= b -> (a <=? b) = true.
Proof. apply Z.leb_le. Qed.

Lemma cancel_in_try (w : world) (i : nat) (t : task) (now : Z) :
  tasks w !! i = Some t -> in_try (t_pc t) = true -> t_cancel t = true ->
  clock w <= now -> t_wake t <= now ->
  exists w',
    step (RunTask i now) w = Some w' /\
    tasks w' = <[i := Task FW_post
                         (now + Z.max 0 (1000 * config_get (CONFIG w) "post_flush_sec")) false]>
                 (tasks w) /\
    clock w' = now /\ CONFIG w' = CONFIG w /\
    valves w' = Some Flush /\ pump_on w' = pump_on w /\
    running_task_type w' = Some FLUSHING /\
    last_flush w' = last_flush w /\ last_filtering w' = last_filtering w.
Proof.
  intros Ht Hp Hc Hk Hw. destruct t as [p wk c]. cbn in Hp, Hc, Hw. subst c.
  open_world w. unfold step. cbn [tasks]. rewrite Ht. cbn [t_pc t_wake t_cancel].
  rewrite (leb_true _ _ Hk), (leb_true _ _ Hw).
  destruct p; try discriminate; cbn [pc_done negb andb]; unfold due; exec_M;
    (eexists; split; [reflexivity|]); cbn; auto 10.
Qed.

(** A cancellation during the pre-flush ends the task and touches nothing
    else: the pins and the two time stamps stay as they are. *)
Lemma cancel_in_pre_flush (w : world) (i : nat) (t : task) (now : Z) :
  tasks w !! i = Some t -> in_pre_flush (t_pc t) = true -> t_cancel t = true ->
  clock w <= now -> t_wake t <= now ->
  exists w',
    step (RunTask i now) w = Some w' /\
    tasks w' = <[i := Task Done (now + 0) false]> (tasks w) /\
    hw w' = hw w /\ last_flush w' = last_flush w /\ last_filtering w' = last_filtering w.
Proof.
  intros Ht Hp Hc Hk Hw. destruct t as [p wk c]. cbn in Hp, Hc, Hw. subst c.
  open_world w. unfold step. cbn [tasks]. rewrite Ht. cbn [t_pc t_wake t_cancel].
  rewrite (leb_true _ _ Hk), (leb_true _ _ Hw).
  destruct p; try discriminate; cbn [pc_done negb andb]; unfold due; exec_M;
    (eexists; split; [reflexivity|]); cbn; auto 10.
Qed.

Lemma resume_post (w : world) (i : nat) (wk now : Z) :
  tasks w !! i = Some (Task FW_post wk false) -> clock w <= now -> wk <= now ->
  exists w',
    step (RunTask i now) w = Some w' /\
    tasks w' = <[i := Task FW_psd2
                         (now + Z.max 0 (config_get (CONFIG w) "pump_switch_delay")) false]>
                 (tasks w) /\
    clock w' = now /\ CONFIG w' = CONFIG w /\
    valves w' = valves w /\ pump_on w' = false /\
    last_flush w' = now / 1000 /\ last_filtering w' = last_filtering w.
Proof.
  intros Ht Hk Hw.
  open_world w. unfold step. cbn [tasks]. rewrite Ht. cbn [t_pc t_wake t_cancel].
  rewrite (leb_true _ _ Hk), (leb_true _ _ Hw).
  cbn [pc_done negb andb]; unfold due; exec_M.
  eexists; split; [reflexivity|]. cbn. auto 10.
Qed.

Lemma resume_psd2 (w : world) (i : nat) (wk now : Z) :
  tasks w !! i = Some (Task FW_psd2 wk false) -> clock w <= now -> wk <= now ->
  exists w',
    step (RunTask i now) w = Some w' /\
    tasks w' = <[i := Task FW_drain (now + 2000) false]> (tasks w) /\
    clock w' = now /\ CONFIG w' = CONFIG w /\
    valves w' = Some Drain /\ pump_on w' = false /\
    last_flush w' = last_flush w /\ last_filtering w' = last_filtering w.
Proof.
  intros Ht Hk Hw.
  open_world w. unfold step. cbn [tasks]. rewrite Ht. cbn [t_pc t_wake t_cancel].
  rewrite (leb_true _ _ Hk), (leb_true _ _ Hw).
  cbn [pc_done negb andb]; unfold due; destruct PIN_PUMP0; exec_M;
    (eexists; split; [reflexivity|]); cbn; auto 10.
Qed.

Lemma resume_drain (w : world) (i : nat) (wk now : Z) :
  tasks w !! i = Some (Task FW_drain wk false) -> clock w <= now -> wk <= now ->
  exists w',
    step (RunTask i now) w = Some w' /\
    tasks w' = <[i := Task Done (now + 0) false]> (tasks w) /\
    clock w' = now /\ CONFIG w' = CONFIG w /\
    valves w' = Some Closed /\ pump_on w' = false /\
    last_flush w' = last_flush w /\ last_filtering w' = now / 1000.
Proof.
  intros Ht Hk Hw.
  open_world w. unfold step. cbn [tasks]. rewrite Ht. cbn [t_pc t_wake t_cancel].
  rewrite (leb_true _ _ Hk), (leb_true _ _ Hw).
  cbn [pc_done negb andb]; unfold due; destruct PIN_PUMP0; exec_M;
    (eexists; split; [reflexivity|]); cbn; auto 10.
Qed.

(** ** Button presses while a filtration runs *)

Lemma flags_long sl l : press_of_flags sl l = Long -> sl = false /\ l = true.
Proof. destruct sl, l; cbn; intros; try discriminate; auto. Qed.

Lemma flags_short sl l : press_of_flags sl l = Short -> sl = false /\ l = false.
Proof. destruct sl, l; cbn; intros; try discriminate; auto. Qed.

(** The dispatch of a long press while a filtration runs. *)
Lemma long_press_dispatch (w : world) (sl l : bool) (i : nat) (t : task) :
  press_of_flags sl l = Long ->
  running_task w = Some i -> tasks w !! i = Some t -> pc_done (t_pc t) = false ->
  running_task_type w = Some FILTERING ->
  let w' := exec (decide_action sl l) w in
  CONFIG w' = <["filter_sec" := clock w / 1000 - start_filtering w]> (CONFIG w) /\
  CONFIG_FILE w' = Some (Json (CONFIG w')) /\
  tasks w' = <[i := cancelled (clock w) t]> (tasks w) /\
  running_task w' = Some i /\
  hw w' = hw w /\ clock w' = clock w.
Proof.
  intros Hp Hr Ht Hd Hty. apply flags_long in Hp as [-> ->].
  open_world w. subst. unfold cancelled.
  unfold exec, decide_action, running_task_cancel, task_done, cancel_task.
  exec_M. rewrite Ht, Hd. exec_M. rewrite Ht, Hd. exec_M.
  auto 10.
Qed.

(** The dispatch of a short press while a filtration runs. *)
Lemma short_press_dispatch (w : world) (sl l : bool) (i : nat) (t : task) :
  press_of_flags sl l = Short ->
  running_task w = Some i -> tasks w !! i = Some t -> pc_done (t_pc t) = false ->
  running_task_type w = Some FILTERING ->
  let w' := exec (decide_action sl l) w in
  tasks w' = <[i := cancelled (clock w) t]> (tasks w) /\
  running_task w' = Some i /\
  CONFIG w' = CONFIG w /\ CONFIG_FILE w' = CONFIG_FILE w /\
  hw w' = hw w /\ clock w' = clock w.
Proof.
  intros Hp Hr Ht Hd Hty. apply flags_short in Hp as [-> ->].
  open_world w. subst. unfold cancelled.
  unfold exec, decide_action, running_task_cancel, task_done, cancel_task.
  exec_M. rewrite Ht, Hd. exec_M. rewrite Ht, Hd. exec_M.
  auto 10.
Qed.

(** The next turn of a task that was cancelled inside the [try] block takes
    it into the cleanup: Flush layout, waiting for the post-flush. *)
Lemma cancelled_goes_to_cleanup (w : world) (i : nat) (t : task) (now : Z) :
  tasks w !! i = Some (cancelled (clock w) t) -> in_try (t_pc t) = true ->
  clock w <= now ->
  exists w',
    step (RunTask i now) w = Some w' /\
    t_pc <$> tasks w' !! i = Some FW_post /\
    valves w' = Some Flush /\ running_task_type w' = Some FLUSHING.
Proof.
  intros Ht Hp Hk.
  assert (Hi : (i < length (tasks w))%nat) by (eapply lookup_lt_Some; exact Ht).
  destruct (cancel_in_try w i _ now Ht Hp eq_refl Hk)
    as (w' & Hs & Hts & _ & _ & Hv & _ & Hty & _).
  { unfold cancelled. cbn [t_wake]. lia. }
  exists w'. split; [exact Hs|]. split; [|auto].
  rewrite Hts, list_lookup_insert_eq by exact Hi. reflexivity.
Qed.

(** C1, as the code has it, on the spec's own example.  A tap starts a
    filtration, which filters from second 72 on (default 720 s).  45 s later
    a one-second hold is dispatched.  Just before, the filtration task waits
    in the Filter layout with the pump on, due at second 792.  At the
    dispatch [filter_sec] becomes 45 and is written to the file, and the
    task is cancelled: it has left the filtration wait for the post-flush
    (Flush layout), and 33 s later it is over, the pump off and the valves
    closed; nothing filters any more. *)
Lemma long_press_cancels_the_filtration :
  let before := world_at long_press_while_filtering 116599 in
  let after := world_at long_press_while_filtering 116600 in
  let later := world_at long_press_while_filtering 150000 in
  (pcs before = [FW_filter] /\ map t_wake (tasks before) = [at_ms 792600] /\
   running_task_type before = Some FILTERING /\
   pump_on before = true /\ valves before = Some Filter /\
   CONFIG before !! "filter_sec" = Some 720 /\
   fst (button_co before) = HB_beep false true) /\
  (CONFIG after !! "filter_sec" = Some 45 /\
   CONFIG_FILE after = Some (Json (CONFIG after)) /\
   pcs after = [FW_post] /\ valves after = Some Flush /\
   running_task after = Some 0%nat) /\
  (pcs later = [Done] /\ pump_on later = false /\ valves later = Some Closed /\
   running_task later = Some 0%nat /\ task_done later = true).
Proof. vm_compute. repeat split; reflexivity. Qed.

(** C1 (amended): a long press that is dispatched while a task runs and
    [running_task_type] is FILTERING cancels that task like every other press
    (it stays in [running_task], due at once with the exception pending, and
    no other task is created), sets [filter_sec] to the seconds since
    [start_filtering], and writes [CONFIG] to the file.  The pins are not
    touched by the dispatch; the filtration does not go on: if the task was
    waiting inside the [try] block of [filter_water], its next turn takes it
    to the post-flush of its cleanup. *)
Theorem long_press_while_filtering_saves_duration
    (w : world) (sl l : bool) (i : nat) (t : task) :
  press_of_flags sl l = Long ->
  running_task w = Some i -> tasks w !! i = Some t -> pc_done (t_pc t) = false ->
  running_task_type w = Some FILTERING ->
  let w' := exec (decide_action sl l) w in
  (CONFIG w' = <["filter_sec" := clock w / 1000 - start_filtering w]> (CONFIG w) /\
   CONFIG_FILE w' = Some (Json (CONFIG w')) /\
   tasks w' = <[i := cancelled (clock w) t]> (tasks w) /\
   running_task w' = Some i /\
   hw w' = hw w) /\
  (in_try (t_pc t) = true ->
   forall now, clock w <= now ->
   exists w'', step (RunTask i now) w' = Some w'' /\
               t_pc <$> tasks w'' !! i = Some FW_post /\
               valves w'' = Some Flush /\ running_task_type w'' = Some FLUSHING).
Proof.
  intros Hp Hr Ht Hd Hty w'.
  destruct (long_press_dispatch w sl l i t Hp Hr Ht Hd Hty)
    as (Hc & Hf & Hts & Hrt & Hhw & Hk).
  fold w' in Hc, Hf, Hts, Hrt, Hhw, Hk.
  split; [auto|].
  intros Htry now Hnow.
  assert (Hi : (i < length (tasks w))%nat) by (eapply lookup_lt_Some; exact Ht).
  apply cancelled_goes_to_cleanup with (t := t); [|exact Htry|lia].
  rewrite Hts, Hk. apply list_lookup_insert_eq. exact Hi.
Qed.

(** The theorem at the dispatch of the example: 45 s are saved. *)
Lemma long_press_while_filtering_saves_duration_witness :
  let w := exec (buzzer_duty_u16 0)
             (set_clock (at_ms 116600) (world_at long_press_while_filtering 116599)) in
  clock w / 1000 - start_filtering w = 45 /\
  CONFIG_FILE (exec (decide_action false true) w) =
    Some (Json (CONFIG (exec (decide_action false true) w))).
Proof.
  intros w. split; [vm_compute; reflexivity|].
  refine (proj1 (proj2 (proj1 (long_press_while_filtering_saves_duration w false true
            0%nat (Task FW_filter (at_ms 792600) false) _ _ _ _ _))));
    vm_compute; reflexivity.
Defined.

(** C3, as the code has it.  A tap starts a filtration; a second tap is
    dispatched 100.3 s after the loops started, while it filters.  The
    filtration is cancelled and goes through its cleanup, but no task is
    created: there is one task before, one after, and once it is over the
    system is idle with the pump off, well before the 720 s have passed. *)
Lemma short_press_starts_no_filtration :
  let before := world_at tap_while_filtering 100299 in
  let after := world_at tap_while_filtering 100300 in
  let later := world_at tap_while_filtering 150000 in
  (pcs before = [FW_filter] /\ running_task_type before = Some FILTERING /\
   fst (button_co before) = HB_beep false false) /\
  (pcs after = [FW_post] /\ running_task after = Some 0%nat) /\
  (pcs later = [Done] /\ task_done later = true /\
   pump_on later = false /\ valves later = Some Closed).
Proof. vm_compute. repeat split; reflexivity. Qed.

(** C3 (amended): a short press that is dispatched while a task runs and
    [running_task_type] is FILTERING cancels that task and does nothing
    else: no task is created, [running_task] still names the cancelled task,
    and the configuration, the file and the pins stay as they were.  If the
    task was waiting inside the [try] block of [filter_water], its next turn
    takes it to the post-flush of its cleanup. *)
Theorem short_press_while_filtering_only_cancels
    (w : world) (sl l : bool) (i : nat) (t : task) :
  press_of_flags sl l = Short ->
  running_task w = Some i -> tasks w !! i = Some t -> pc_done (t_pc t) = false ->
  running_task_type w = Some FILTERING ->
  let w' := exec (decide_action sl l) w in
  (tasks w' = <[i := cancelled (clock w) t]> (tasks w) /\
   running_task w' = Some i /\
   CONFIG w' = CONFIG w /\ CONFIG_FILE w' = CONFIG_FILE w /\ hw w' = hw w) /\
  (in_try (t_pc t) = true ->
   forall now, clock w <= now ->
   exists w'', step (RunTask i now) w' = Some w'' /\
               t_pc <$> tasks w'' !! i = Some FW_post /\
               valves w'' = Some Flush /\ running_task_type w'' = Some FLUSHING).
Proof.
  intros Hp Hr Ht Hd Hty w'.
  destruct (short_press_dispatch w sl l i t Hp Hr Ht Hd Hty)
    as (Hts & Hrt & Hc & Hf & Hhw & Hk).
  fold w' in Hc, Hf, Hts, Hrt, Hhw, Hk.
  split; [auto 10|].
  intros Htry now Hnow.
  assert (Hi : (i < length (tasks w))%nat) by (eapply lookup_lt_Some; exact Ht).
  apply cancelled_goes_to_cleanup with (t := t); [|exact Htry|lia].
  rewrite Hts, Hk. apply list_lookup_insert_eq. exact Hi.
Qed.

(** The theorem at the second tap of the scenario. *)
Lemma short_press_while_filtering_only_cancels_witness :
  let w := exec (buzzer_duty_u16 0)
             (set_clock (at_ms 100300) (world_at tap_while_filtering 100299)) in
  running_task w = Some 0%nat /\
  running_task (exec (decide_action false false) w) = Some 0%nat.
Proof.
  intros w. split; [vm_compute; reflexivity|].
  refine (proj1 (proj2 (proj1 (short_press_while_filtering_only_cancels w false false
            0%nat (Task FW_filter (at_ms 792600) false) _ _ _ _ _))));
    vm_compute; reflexivity.
Defined.

(** ** Cancelling a filtration *)

(** C4, as the code has it.  (a) A filtration that is cancelled while it
    waits in its pre-flush runs no cleanup at all: [pre_flush_filter] is
    awaited before [filter_water] enters its [try].  In the scenario a 6 s
    hold is dispatched 9 s after the loops started, during the pre-flush of a
    filtration; the cancelled task is over at once, [last_flush] and
    [last_filtering] keep their initial 0, the pump stays on and the valves
    stay in the Flush layout of the long flush that takes over.
    (b) A filtration that is cancelled while it filters does run its cleanup,
    but the cleanup waits: cancelled at second 101 after power-on, it sets
    [last_flush] at second 131 and [last_filtering] at second 134. *)
Lemma cancelled_filtration_without_cleanup :
  let before := world_at super_long_press_in_pre_flush 8999 in
  let after := world_at super_long_press_in_pre_flush 9000 in
  let later := world_at super_long_press_in_pre_flush 60000 in
  let stopped := world_at tap_while_filtering 150000 in
  ((pcs before = [FW_pre 720] /\ pump_on before = true) /\
   (pcs after = [Done; LF_flush] /\ pump_on after = true /\ valves after = Some Flush /\
    last_flush after = 0 /\ last_filtering after = 0) /\
   (pcs later = [Done; LF_flush] /\ pump_on later = true /\ valves later = Some Flush /\
    last_flush later = 0 /\ last_filtering later = 0)) /\
  (at_ms 100300 / 1000 = T0 / 1000 + 101 /\
   pcs stopped = [Done] /\
   last_flush stopped = T0 / 1000 + 131 /\
   last_filtering stopped = T0 / 1000 + 134).
Proof. vm_compute. repeat split; reflexivity. Qed.

(** C4 (amended): a filtration that is cancelled at one of the waits inside
    the [try] block of [filter_water] (the pump switch delay, the filtration
    wait, the completion beeps) runs its cleanup; when the cleanup is not
    cancelled in turn, it takes four turns of the task, at [n0] (the
    cancellation), after the post-flush ([n1]), after the pump switch delay
    ([n2]) and after the 2 s drain ([n3]).  Then the task is finished,
    [last_flush] is the clock at the end of the post-flush, [last_filtering]
    is the clock at the end of the cleanup, the pump is off and the valves
    are closed. *)
Theorem cancelled_filtration_cleans_up
    (w : world) (i : nat) (t : task) (n0 n1 n2 n3 : Z) :
  tasks w !! i = Some t -> in_try (t_pc t) = true -> t_cancel t = true ->
  clock w <= n0 -> t_wake t <= n0 ->
  n0 + Z.max 0 (1000 * config_get (CONFIG w) "post_flush_sec") <= n1 ->
  n1 + Z.max 0 (config_get (CONFIG w) "pump_switch_delay") <= n2 ->
  n2 + 2000 <= n3 ->
  exists w',
    run [RunTask i n0; RunTask i n1; RunTask i n2; RunTask i n3] w = Some w' /\
    t_pc <$> tasks w' !! i = Some Done /\
    last_flush w' = n1 / 1000 /\ last_filtering w' = n3 / 1000 /\
    pump_on w' = false /\ valves w' = Some Closed.
Proof.
  intros Ht Hp Hc Hk Hw H1 H2 H3.
  assert (Hi : (i < length (tasks w))%nat) by (eapply lookup_lt_Some; exact Ht).
  destruct (cancel_in_try w i t n0 Ht Hp Hc Hk Hw)
    as (w1 & S1 & T1 & K1 & C1 & _).
  assert (L1 : tasks w1 !! i = Some (Task FW_post
             (n0 + Z.max 0 (1000 * config_get (CONFIG w) "post_flush_sec")) false)).
  { rewrite T1. apply list_lookup_insert_eq. exact Hi. }
  assert (I1 : (i < length (tasks w1))%nat) by (eapply lookup_lt_Some; exact L1).
  destruct (resume_post w1 i _ n1 L1 ltac:(lia) H1)
    as (w2 & S2 & T2 & K2 & C2 & _ & _ & F2 & _).
  assert (L2 : tasks w2 !! i = Some (Task FW_psd2
             (n1 + Z.max 0 (config_get (CONFIG w1) "pump_switch_delay")) false)).
  { rewrite T2. apply list_lookup_insert_eq. exact I1. }
  assert (I2 : (i < length (tasks w2))%nat) by (eapply lookup_lt_Some; exact L2).
  rewrite C1 in L2.
  destruct (resume_psd2 w2 i _ n2 L2 ltac:(lia) H2)
    as (w3 & S3 & T3 & K3 & C3 & _ & _ & F3 & _).
  assert (L3 : tasks w3 !! i = Some (Task FW_drain (n2 + 2000) false)).
  { rewrite T3. apply list_lookup_insert_eq. exact I2. }
  assert (I3 : (i < length (tasks w3))%nat) by (eapply lookup_lt_Some; exact L3).
  destruct (resume_drain w3 i _ n3 L3 ltac:(lia) H3)
    as (w4 & S4 & T4 & K4 & C4 & V4 & P4 & F4 & G4).
  exists w4. cbn [run]. rewrite S1, S2, S3, S4.
  split; [reflexivity|]. split.
  { rewrite T4, list_lookup_insert_eq by exact I3. reflexivity. }
  rewrite F4, F3. auto.
Qed.

(** The theorem at the second tap of the tap scenario: the filtration is
    cancelled 100.3 s after the loops started; its cleanup ends 33 s later. *)
Lemma cancelled_filtration_cleans_up_witness :
  let w := after_turn (RunButton false (at_ms 100300)) (world_at tap_while_filtering 100299) in
  tasks w !! 0%nat = Some (Task FW_filter (at_ms 100300) true) /\
  exists w',
    run [RunTask 0 (at_ms 100300); RunTask 0 (at_ms 130300);
         RunTask 0 (at_ms 131300); RunTask 0 (at_ms 133300)] w = Some w' /\
    t_pc <$> tasks w' !! 0%nat = Some Done /\
    last_flush w' = at_ms 130300 / 1000 /\ last_filtering w' = at_ms 133300 / 1000 /\
    pump_on w' = false /\ valves w' = Some Closed.
Proof.
  intros w.
  assert (Ht : tasks w !! 0%nat = Some (Task FW_filter (at_ms 100300) true))
    by (vm_compute; reflexivity).
  split; [exact Ht|].
  apply (cancelled_filtration_cleans_up w 0 (Task FW_filter (at_ms 100300) true)
           (at_ms 100300) (at_ms 130300) (at_ms 131300) (at_ms 133300) Ht);
    vm_compute; first [reflexivity | discriminate].
Defined.

(** ** What the program does to [CONFIG] *)

Lemma resume_CONFIG (p : pc) (w : world) : CONFIG (snd (resume p w)) = CONFIG w.
Proof.
  open_world w. destruct PIN_PUMP0, p; exec_M; try reflexivity;
    destruct (flush_needed _); exec_M; reflexivity.
Qed.

Lemma throw_CONFIG (p : pc) (w : world) : CONFIG (snd (throw p w)) = CONFIG w.
Proof. open_world w. destruct p; exec_M; reflexivity. Qed.

Lemma cancel_task_CONFIG (i : nat) (w : world) : CONFIG (cancel_task i w) = CONFIG w.
Proof.
  unfold cancel_task. destruct (tasks w !! i) as [t|]; [|reflexivity].
  destruct (pc_done (t_pc t)); reflexivity.
Qed.

Lemma decide_action_CONFIG (sl l : bool) (w : world) :
  config_step (CONFIG w) (CONFIG (exec (decide_action sl l) w)).
Proof.
  unfold config_step, exec, decide_action, running_task_cancel.
  open_world w. exec_M. destruct (task_done _); exec_M.
  - destruct sl, l; exec_M; left; reflexivity.
  - destruct running_task0 as [i|]; unfold cancel_task; cbn [tasks];
      [destruct (tasks0 !! i) as [t|]; [destruct (pc_done (t_pc t))|]|];
      destruct sl, l, running_task_type0 as [[]|];
      cbn [type_is task_type_eqb andb]; exec_M;
      first [left; reflexivity | right; eexists; reflexivity].
Qed.

Lemma check_auto_flush_body_CONFIG (w : world) :
  CONFIG (exec check_auto_flush_body w) = CONFIG w.
Proof. rewrite check_auto_flush_body_eq. destruct (_ && _); reflexivity. Qed.

Lemma handle_button_CONFIG (pressed : bool) (p : button_pc) (w : world) :
  config_step (CONFIG w) (CONFIG (snd (handle_button pressed p w))).
Proof.
  destruct p as [| |ms_start|sl l].
  1-3: left; open_world w; destruct pressed; exec_M; try reflexivity;
       destruct (super_long_pressed_of _); try destruct (long_pressed_of _);
       exec_M; reflexivity.
  pose proof (decide_action_CONFIG sl l (exec (buzzer_duty_u16 0) w)) as H.
  assert (E : CONFIG (exec (buzzer_duty_u16 0) w) = CONFIG w)
    by (open_world w; exec_M; reflexivity).
  rewrite E in H.
  assert (E2 : CONFIG (snd (handle_button pressed (HB_beep sl l) w)) =
               CONFIG (exec (decide_action sl l) (exec (buzzer_duty_u16 0) w))).
  { unfold handle_button, exec.
    cbv beta iota zeta delta [mbind M_bind bind snd].
    destruct (buzzer_duty_u16 0 w) as [[] w1].
    destruct (decide_action sl l w1) as [[] w2].
    open_world w2. destruct pressed; exec_M; reflexivity. }
  rewrite E2. exact H.
Qed.

Lemma step_CONFIG (l : label) (w w' : world) :
  step l w = Some w' -> config_step (CONFIG w) (CONFIG w').
Proof.
  destruct l as [i now|pressed now|now]; unfold step.
  - destruct (tasks w !! i) as [t|]; [|discriminate].
    destruct (_ && _); [|discriminate].
    destruct (t_cancel t).
    + pose proof (throw_CONFIG (t_pc t) (set_clock now w)) as H.
      destruct (throw _ _) as [[p ms] w1]. intros [= <-]. left. exact H.
    + pose proof (resume_CONFIG (t_pc t) (set_clock now w)) as H.
      destruct (resume _ _) as [[p ms] w1]. intros [= <-]. left. exact H.
  - destruct (_ && _); [|discriminate].
    pose proof (handle_button_CONFIG pressed (fst (button_co w)) (set_clock now w)) as H.
    destruct (handle_button _ _ _) as [[p ms] w1]. intros [= <-]. exact H.
  - destruct (_ && _); [|discriminate].
    pose proof (check_auto_flush_body_CONFIG (set_clock now w)) as H.
    unfold check_auto_flush, exec in *.
    destruct (fst (auto_co w)); cbv beta iota zeta delta [mbind M_bind bind sleep ret] in *.
    + intros [= <-]. left. reflexivity.
    + destruct (check_auto_flush_body _) as [[] w1]. intros [= <-]. left. exact H.
Qed.

Lemma run_CONFIG (ls : list label) (w w' : world) :
  run ls w = Some w' -> config_kept (CONFIG w) (CONFIG w').
Proof.
  revert w. induction ls as [|l ls IH]; intros w; cbn [run].
  - intros [= <-]. split; auto.
  - destruct (step l w) as [w1|] eqn:E; [|discriminate].
    intros Hr. destruct (IH _ Hr) as [Hk Hf].
    destruct (step_CONFIG _ _ _ E) as [Hc|[v Hc]]; rewrite Hc in *.
    + split; auto.
    + split.
      * intros k Hne. rewrite Hk by exact Hne. apply lookup_insert_ne. congruence.
      * intros _. apply Hf. rewrite lookup_insert_eq. eauto.
Qed.


Lemma default_CONFIG_keys (k : string) :
  k ∈ config_keys -> is_Some (default_CONFIG !! k).
Proof.
  unfold config_keys. intros Hk.
  repeat (apply elem_of_cons in Hk as [->|Hk]; [vm_compute; eauto|]).
  apply elem_of_nil in Hk. destruct Hk.
Qed.

Lemma running_task_not_done (w : world) :
  task_done w = false ->
  exists i t, running_task w = Some i /\ tasks w !! i = Some t /\ pc_done (t_pc t) = false.
Proof.
  unfold task_done. destruct (running_task w) as [i|]; [|discriminate].
  destruct (tasks w !! i) as [t|] eqn:Ht; [|discriminate].
  intros Hd. exists i, t. repeat split; [exact Ht|exact Hd].
Qed.

(** ** Runs of the scheduler *)

Lemma run_schedule (s : signal) (deadline : Z) (fuel : nat) (w : world) :
  run (schedule s deadline fuel w) w = Some (simulate s deadline fuel w).
Proof.
  revert w. induction fuel as [|fuel IH]; intros w; cbn [schedule simulate run].
  - reflexivity.
  - destruct (label_time _ <=? deadline); [|reflexivity].
    destruct (step (next_label s w) w) as [w'|] eqn:E; [|reflexivity].
    cbn [run]. rewrite E. apply IH.
Qed.

Lemma started_with_ok (f : option file_content) (d : gmap string Z) :
  read_config (power_on T0 f) = Ok (Dict d) -> main T0 f = Ok (started_with f).
Proof.
  intros Hr. destruct (main_ok T0 f d Hr) as (w & Hm & _).
  unfold started_with. rewrite Hm. reflexivity.
Qed.

Lemma world_with_reachable (f : option file_content) (d : gmap string Z)
    (s : signal) (ms : Z) :
  read_config (power_on T0 f) = Ok (Dict d) -> reachable (world_with f s ms).
Proof.
  intros Hr. unfold reachable, world_with.
  exists T0, f, (started_with f), (schedule s (at_ms ms) (Z.to_nat ms) (started_with f)).
  split; [exact (started_with_ok f d Hr)|]. apply run_schedule.
Qed.

Lemma world_at_reachable (s : signal) (ms : Z) : reachable (world_at s ms).
Proof. exact (world_with_reachable None ∅ s ms eq_refl). Qed.

(** The button loop's turn after the beep is the dispatch. *)
Lemma dispatch_turn (w w' : world) (sl l pressed : bool) (now : Z) :
  fst (button_co w) = HB_beep sl l ->
  step (RunButton pressed now) w = Some w' ->
  let v := exec (decide_action sl l) (exec (buzzer_duty_u16 0) (set_clock now w)) in
  CONFIG w' = CONFIG v /\ CONFIG_FILE w' = CONFIG_FILE v /\ tasks w' = tasks v /\
  running_task w' = running_task v /\ hw w' = hw v.
Proof.
  intros Hb. unfold step. rewrite Hb. destruct (_ && _); [|discriminate].
  unfold handle_button, exec. cbv beta iota zeta delta [mbind M_bind bind snd].
  destruct (buzzer_duty_u16 0 _) as [[] w1].
  destruct (decide_action sl l w1) as [[] w2].
  open_world w2. destruct pressed; exec_M; intros [= <-]; cbn; auto.
Qed.

Lemma before_dispatch (w : world) (now : Z) :
  let v := exec (buzzer_duty_u16 0) (set_clock now w) in
  CONFIG v = CONFIG w /\ tasks v = tasks w /\ running_task v = running_task w /\
  running_task_type v = running_task_type w /\ start_filtering v = start_filtering w /\
  clock v = now /\ task_done v = task_done w.
Proof. open_world w. unfold task_done. exec_M. auto 10. Qed.

(** C10: when the button loop dispatches a long press while a filtration
    runs, in any world the program can reach from start-up, the file is
    replaced by the whole of [CONFIG] as it is after the update: in it
    [filter_sec] is the new duration, every other key has the value it got at
    start-up (from the file if the file had it, else the default), each of
    the nine keys is present, and so is every key that the file had at
    start-up, known to the program or not. *)
Theorem long_press_writes_whole_CONFIG
    (t0 : Z) (f : option file_content) (d : gmap string Z)
    (w0 w w' : world) (ls : list label) (sl l pressed : bool) (now : Z) :
  read_config (power_on t0 f) = Ok (Dict d) ->
  main t0 f = Ok w0 -> run ls w0 = Some w ->
  fst (button_co w) = HB_beep sl l -> press_of_flags sl l = Long ->
  task_done w = false -> running_task_type w = Some FILTERING ->
  step (RunButton pressed now) w = Some w' ->
  CONFIG_FILE w' = Some (Json (CONFIG w')) /\
  CONFIG w' !! "filter_sec" = Some (now / 1000 - start_filtering w) /\
  (forall k, k <> "filter_sec" -> CONFIG w' !! k = (d ∪ default_CONFIG) !! k) /\
  (forall k, k ∈ config_keys -> is_Some (CONFIG w' !! k)) /\
  (forall k, is_Some (d !! k) -> is_Some (CONFIG w' !! k)).
Proof.
  intros Hread Hmain Hrun Hb Hp Hd Hty Hstep.
  destruct (main_ok t0 f d Hread) as (w00 & Hm & Hc0 & _).
  rewrite Hmain in Hm. injection Hm as <-.
  destruct (run_CONFIG _ _ _ Hrun) as [Hk _]. rewrite Hc0 in Hk.
  destruct (dispatch_turn w w' sl l pressed now Hb Hstep) as (Ec & Ef & _).
  destruct (before_dispatch w now) as (Bc & Bt & Br & Bty & Bs & Bk & Bd).
  set (v := exec (buzzer_duty_u16 0) (set_clock now w)) in *.
  rewrite <- Bd in Hd. rewrite <- Bty in Hty.
  destruct (running_task_not_done v Hd) as (i & t & Hr & Ht & Hpc).
  destruct (long_press_dispatch v sl l i t Hp Hr Ht Hpc Hty) as (Hc & Hf & _).
  rewrite <- Ec, <- Ef, Bk, Bs, Bc in *.
  assert (Hother : forall k, k <> "filter_sec" -> CONFIG w' !! k = (d ∪ default_CONFIG) !! k).
  { intros k Hne. rewrite Hc, lookup_insert_ne by congruence. apply Hk, Hne. }
  assert (Hfs : CONFIG w' !! "filter_sec" = Some (now / 1000 - start_filtering w)).
  { rewrite Hc. apply lookup_insert_eq. }
  assert (Hsome : forall k, is_Some ((d ∪ default_CONFIG) !! k) -> is_Some (CONFIG w' !! k)).
  { intros k Hs. destruct (decide (k = "filter_sec")) as [->|Hne].
    - rewrite Hfs. eauto.
    - rewrite Hother by exact Hne. exact Hs. }
  split; [exact Hf|]. split; [exact Hfs|]. split; [exact Hother|]. split.
  - intros k Hin. apply Hsome, lookup_union_is_Some. right.
    apply default_CONFIG_keys, Hin.
  - intros k Hin. apply Hsome, lookup_union_is_Some. left. exact Hin.
Qed.

(** The theorem in the long-press scenario, started with a file that holds
    a key the program does not know: the dispatch 116.6 s after the loops
    started writes a file that still has that key. *)
Lemma long_press_writes_whole_CONFIG_witness :
  let f := Some (Json file_with_owner) in
  let w := world_with f long_press_while_filtering 116599 in
  let w' := after_turn (RunButton false (at_ms 116600)) w in
  (fst (button_co w) = HB_beep false true /\ task_done w = false /\
   running_task_type w = Some FILTERING) /\
  CONFIG_FILE w' = Some (Json (CONFIG w')) /\
  is_Some (CONFIG w' !! "owner").
Proof.
  intros f w w'.
  assert (Hb : fst (button_co w) = HB_beep false true) by (vm_compute; reflexivity).
  assert (Hd : task_done w = false) by (vm_compute; reflexivity).
  assert (Hty : running_task_type w = Some FILTERING) by (vm_compute; reflexivity).
  assert (Hstep : step (RunButton false (at_ms 116600)) w = Some w')
    by (vm_compute; reflexivity).
  assert (Hown : is_Some (file_with_owner !! "owner")) by (vm_compute; eauto).
  pose proof (long_press_writes_whole_CONFIG T0 f file_with_owner (started_with f) w w'
                (schedule long_press_while_filtering (at_ms 116599) (Z.to_nat 116599)
                   (started_with f))
                false true false (at_ms 116600)
                eq_refl (started_with_ok f file_with_owner eq_refl)
                (run_schedule _ _ _ _) Hb eq_refl Hd Hty Hstep)
    as (Hfile & _ & _ & _ & Hkeys).
  split; [auto|]. split; [exact Hfile|]. exact (Hkeys "owner" Hown).
Defined.

(** The scenario worlds are the worlds at their deadlines: in each, the next
    turn of the loop is due later (the scheduler did not stop for lack of
    fuel). *)
Lemma scenario_worlds_complete :
  next_turn_ms [hold 300 1100] (world_at [hold 300 1100] 1099) = 1100 /\
  next_turn_ms tap_to_filter (world_at tap_to_filter 73000) = 73050 /\
  next_turn_ms long_press_while_filtering (world_at long_press_while_filtering 116599) = 116600 /\
  next_turn_ms long_press_while_filtering (world_at long_press_while_filtering 150000) = 150050 /\
  next_turn_ms tap_while_filtering (world_at tap_while_filtering 100299) = 100300 /\
  next_turn_ms tap_while_filtering (world_at tap_while_filtering 150000) = 150050 /\
  next_turn_ms super_long_press_in_pre_flush (world_at super_long_press_in_pre_flush 8999) = 9000 /\
  next_turn_ms super_long_press_in_pre_flush (world_at super_long_press_in_pre_flush 60000) = 60050 /\
  next_turn_ms restart_during_cleanup (world_at restart_during_cleanup 119499) = 119500 /\
  next_turn_ms restart_during_cleanup (world_at restart_during_cleanup 120500) = 120550 /\
  next_turn_ms restart_during_cleanup (world_at restart_during_cleanup 840000) = 840050.
Proof. vm_compute. repeat split; reflexivity. Qed.

(** ** The pump and the valves *)

(** C2 fails in the code.  A tap starts a filtration (task 0).  While it
    filters, a 6 s hold is dispatched (second 87 after the loops started):
    task 0 is cancelled and replaced in [running_task] by a long flush (task
    1), but it still runs its cleanup: post-flush until second 117, pump off,
    inlet closed at second 118, valves to be closed at second 120.  A tap
    dispatched at 119.5 s cancels the long flush and starts a second
    filtration (task 2), which needs no pre-flush, sets the Filter layout and
    waits one second for the pump.  At 120 s task 0 closes the valves; at
    120.5 s task 2 switches the pump on: the pump runs with the valves in
    the Closed layout, and still does twelve minutes later. *)
Theorem pump_on_with_valves_closed :
  let s := restart_during_cleanup in
  (reachable (world_at s 120500) /\ reachable (world_at s 840000)) /\
  (pcs (world_at s 86999) = [FW_filter] /\
   pcs (world_at s 87000) = [FW_post; LF_flush] /\
   running_task (world_at s 87000) = Some 1%nat) /\
  (pcs (world_at s 119499) = [FW_drain; LF_flush] /\
   pump_on (world_at s 119499) = false /\ valves (world_at s 119499) = Some Drain) /\
  (pcs (world_at s 119500) = [FW_drain; Done; FW_psd 720] /\
   pump_on (world_at s 119500) = false /\ valves (world_at s 119500) = Some Filter) /\
  (pcs (world_at s 120000) = [Done; Done; FW_psd 720] /\
   pump_on (world_at s 120000) = false /\ valves (world_at s 120000) = Some Closed) /\
  (pcs (world_at s 120500) = [Done; Done; FW_filter] /\
   pump_on (world_at s 120500) = true /\ valves (world_at s 120500) = Some Closed /\
   pump_safe (world_at s 120500) = false) /\
  (pcs (world_at s 840000) = [Done; Done; FW_filter] /\
   pump_on (world_at s 840000) = true /\ valves (world_at s 840000) = Some Closed /\
   pump_safe (world_at s 840000) = false) /\
  last_events 8 (world_at s 120500) =
    [Print MsgClosingValves; PinWrite Valve1 true; PinWrite Valve2 true;
     PinWrite Valve3 true; PinWrite Valve4 true; Print MsgNewline;
     Print (MsgPump true); PinWrite Pump true].
Proof.
  intros s. split; [split; apply world_at_reachable|].
  vm_compute. repeat split; reflexivity.
Qed.

(** * Further properties of the program *)

(** ** Valve presets *)

(** X1: The three presets that let water through write the four valve pins in
    the order 1, 2, 3, 4 and nothing else: each establishes its layout from
    any state of the pins and leaves the pump as it is. *)
Theorem valve_presets_ignore_pump (w : world) :
  (valves (exec set_valves_to_flush w) = Some Flush /\
   valves (exec set_valves_to_disposal w) = Some Disposal /\
   valves (exec set_valves_to_filter w) = Some Filter) /\
  (pump_on (exec set_valves_to_flush w) = pump_on w /\
   pump_on (exec set_valves_to_disposal w) = pump_on w /\
   pump_on (exec set_valves_to_filter w) = pump_on w) /\
  (console (exec set_valves_to_flush w) = console w ++
     [PinWrite Valve1 false; PinWrite Valve2 false; PinWrite Valve3 true; PinWrite Valve4 true] /\
   console (exec set_valves_to_disposal w) = console w ++
     [PinWrite Valve1 false; PinWrite Valve2 true; PinWrite Valve3 true; PinWrite Valve4 false] /\
   console (exec set_valves_to_filter w) = console w ++
     [PinWrite Valve1 false; PinWrite Valve2 true; PinWrite Valve3 false; PinWrite Valve4 true]).
Proof.
  open_world w. exec_M. rewrite <- !app_assoc. cbn. auto 10.
Qed.

(** ** Start-up *)

(** X2: When [init] returns, the pump is off and the valves are closed,
    whatever the pins were before: it prints its notice, calls
    [set_pump(False)] and [close_valves()], which finds the pump off and
    writes the four valves only, and then prints the configuration it
    read. *)
Theorem init_closes_everything (w w' : world) :
  init w = Ok w' ->
  pump_on w' = false /\ valves w' = Some Closed /\
  console w' = console w ++
    [Print MsgInit; Print (MsgPump false); PinWrite Pump false] ++ writes_closed ++
    [Print (MsgConfigRead (CONFIG w'))].
Proof.
  unfold init, read_config. open_world w. exec_M.
  destruct (read_config_try CONFIG_FILE0) as [[d|e]|[]]; exec_M; try discriminate;
    intros [= <-]; cbn; rewrite <- !app_assoc; auto.
Qed.

Lemma init_closes_everything_witness :
  init (set_hw (Pins false false false false true 0 0) (power_on T0 None))
    = Ok (after_init_with_pump_on) /\
  pump_on after_init_with_pump_on = false /\ valves after_init_with_pump_on = Some Closed.
Proof.
  assert (H : init (set_hw (Pins false false false false true 0 0) (power_on T0 None))
              = Ok after_init_with_pump_on) by (vm_compute; reflexivity).
  split; [exact H|].
  destruct (init_closes_everything _ _ H) as (Hp & Hv & _). split; assumption.
Defined.

(** ** The configuration over a run *)

Lemma main_ok_inv (t0 : Z) (f : option file_content) (w0 : world) :
  main t0 f = Ok w0 -> exists d, read_config (power_on t0 f) = Ok (Dict d).
Proof.
  destruct f as [[|d|e]|].
  - unfold main, init, read_config, power_on. exec_M.
    cbv beta iota delta [read_config_try open_read ujson_loads]. discriminate.
  - intros _. exists d. reflexivity.
  - unfold main, init, read_config, power_on. exec_M.
    cbv beta iota delta [read_config_try open_read ujson_loads]. discriminate.
  - intros _. exists ∅. reflexivity.
Qed.

(** X3: [CONFIG.update] at start-up: a key of the file wins, a key the file
    lacks keeps its default, a key only the file has is taken over. *)
Theorem config_after_start_up
    (t0 : Z) (d : gmap string Z) (w0 : world) (k : string) :
  main t0 (Some (Json d)) = Ok w0 ->
  CONFIG w0 !! k = match d !! k with
                   | Some v => Some v
                   | None => default_CONFIG !! k
                   end.
Proof.
  intros Hm. destruct (main_ok t0 (Some (Json d)) d eq_refl) as (w & Hw & Hc & _).
  rewrite Hm in Hw. injection Hw as <-. rewrite Hc.
  destruct (d !! k) as [v|] eqn:E.
  - apply lookup_union_Some_l. exact E.
  - apply lookup_union_r. exact E.
Qed.

Lemma config_after_start_up_witness :
  main T0 (Some (Json file_with_owner)) = Ok (started_with (Some (Json file_with_owner))) /\
  CONFIG (started_with (Some (Json file_with_owner))) !! "owner" = Some 7.
Proof.
  pose proof (started_with_ok (Some (Json file_with_owner)) file_with_owner eq_refl) as H.
  split; [exact H|].
  rewrite (config_after_start_up T0 file_with_owner _ "owner" H). vm_compute. reflexivity.
Defined.

Lemma default_CONFIG_only_keys (k : string) :
  is_Some (default_CONFIG !! k) -> k ∈ config_keys.
Proof.
  intros H. unfold default_CONFIG in H. rewrite !lookup_insert in H.
  unfold config_keys.
  repeat (case_decide; [subst; set_solver|]).
  rewrite lookup_empty in H. destruct H as [x Hx]. discriminate.
Qed.

(** X4: In every world the program reaches, each of the nine keys is in
    [CONFIG] (a read [CONFIG[k]] cannot fail), and every key but [filter_sec]
    still has its start-up value. *)
Theorem config_keys_stay
    (t0 : Z) (f : option file_content) (w0 w : world) (ls : list label) :
  main t0 f = Ok w0 -> run ls w0 = Some w ->
  (forall k, k ∈ config_keys -> is_Some (CONFIG w !! k)) /\
  (forall k, k <> "filter_sec" -> CONFIG w !! k = CONFIG w0 !! k).
Proof.
  intros Hm Hr. destruct (main_ok_inv _ _ _ Hm) as (d & Hd).
  destruct (main_ok t0 f d Hd) as (w00 & Hw & Hc & _).
  rewrite Hm in Hw. injection Hw as <-.
  destruct (run_CONFIG _ _ _ Hr) as [Hk Hf].
  assert (H0 : forall k, k ∈ config_keys -> is_Some (CONFIG w0 !! k)).
  { intros k Hin. rewrite Hc. apply lookup_union_is_Some. right.
    apply default_CONFIG_keys, Hin. }
  split; [|exact Hk].
  intros k Hin. destruct (decide (k = "filter_sec")) as [->|Hne].
  - apply Hf, H0, Hin.
  - rewrite Hk by exact Hne. apply H0, Hin.
Qed.

Lemma config_keys_stay_witness :
  let w := world_with None restart_during_cleanup 120500 in
  is_Some (CONFIG w !! "pump_switch_delay").
Proof.
  intros w.
  refine (proj1 (config_keys_stay T0 None (started_with None) w
                   (schedule restart_during_cleanup (at_ms 120500) (Z.to_nat 120500)
                      (started_with None))
                   (started_with_ok None ∅ eq_refl) (run_schedule _ _ _ _))
            "pump_switch_delay" _).
  unfold config_keys. set_solver.
Defined.

(** ** The configuration file over a run *)

Lemma resume_FILE (p : pc) (w : world) : CONFIG_FILE (snd (resume p w)) = CONFIG_FILE w.
Proof.
  open_world w. destruct PIN_PUMP0, p; exec_M; try reflexivity;
    destruct (flush_needed _); exec_M; reflexivity.
Qed.

Lemma throw_FILE (p : pc) (w : world) : CONFIG_FILE (snd (throw p w)) = CONFIG_FILE w.
Proof. open_world w. destruct p; exec_M; reflexivity. Qed.

Lemma decide_action_FILE (sl l : bool) (w : world) :
  let w' := exec (decide_action sl l) w in
  CONFIG_FILE w' = CONFIG_FILE w \/ CONFIG_FILE w' = Some (Json (CONFIG w')).
Proof.
  unfold exec, decide_action, running_task_cancel.
  open_world w. exec_M. destruct (task_done _); exec_M.
  - destruct sl, l; exec_M; left; reflexivity.
  - destruct running_task0 as [i|]; unfold cancel_task; cbn [tasks];
      [destruct (tasks0 !! i) as [t|]; [destruct (pc_done (t_pc t))|]|];
      destruct sl, l, running_task_type0 as [[]|];
      cbn [type_is task_type_eqb andb]; exec_M;
      first [left; reflexivity | right; reflexivity].
Qed.

Lemma handle_button_FILE (pressed : bool) (p : button_pc) (w : world) :
  let w' := snd (handle_button pressed p w) in
  CONFIG_FILE w' = CONFIG_FILE w \/ CONFIG_FILE w' = Some (Json (CONFIG w')).
Proof.
  destruct p as [| |ms_start|sl l]; cbv zeta.
  1-3: left; open_world w; destruct pressed; exec_M; try reflexivity;
       destruct (super_long_pressed_of _); try destruct (long_pressed_of _);
       exec_M; reflexivity.
  pose proof (decide_action_FILE sl l (exec (buzzer_duty_u16 0) w)) as H. cbv zeta in H.
  assert (E : CONFIG_FILE (exec (buzzer_duty_u16 0) w) = CONFIG_FILE w)
    by (open_world w; exec_M; reflexivity).
  rewrite E in H.
  assert (E2 : CONFIG_FILE (snd (handle_button pressed (HB_beep sl l) w)) =
               CONFIG_FILE (exec (decide_action sl l) (exec (buzzer_duty_u16 0) w)) /\
               CONFIG (snd (handle_button pressed (HB_beep sl l) w)) =
               CONFIG (exec (decide_action sl l) (exec (buzzer_duty_u16 0) w))).
  { unfold handle_button, exec.
    cbv beta iota zeta delta [mbind M_bind bind snd].
    destruct (buzzer_duty_u16 0 w) as [[] w1].
    destruct (decide_action sl l w1) as [[] w2].
    open_world w2. destruct pressed; exec_M; split; reflexivity. }
  destruct E2 as [E2 E3]. rewrite E2, E3. exact H.
Qed.

Lemma step_FILE (l : label) (w w' : world) :
  step l w = Some w' ->
  CONFIG_FILE w' = CONFIG_FILE w \/ CONFIG_FILE w' = Some (Json (CONFIG w')).
Proof.
  destruct l as [i now|pressed now|now]; unfold step.
  - destruct (tasks w !! i) as [t|]; [|discriminate].
    destruct (_ && _); [|discriminate].
    destruct (t_cancel t).
    + pose proof (throw_FILE (t_pc t) (set_clock now w)) as H.
      destruct (throw _ _) as [[p ms] w1]. intros [= <-]. left. exact H.
    + pose proof (resume_FILE (t_pc t) (set_clock now w)) as H.
      destruct (resume _ _) as [[p ms] w1]. intros [= <-]. left. exact H.
  - destruct (_ && _); [|discriminate].
    pose proof (handle_button_FILE pressed (fst (button_co w)) (set_clock now w)) as H.
    cbv zeta in H.
    destruct (handle_button _ _ _) as [[p ms] w1]. intros [= <-]. exact H.
  - destruct (_ && _); [|discriminate].
    assert (H : CONFIG_FILE (exec check_auto_flush_body (set_clock now w)) = CONFIG_FILE w).
    { rewrite check_auto_flush_body_eq. destruct (_ && _); reflexivity. }
    unfold check_auto_flush, exec in *.
    destruct (fst (auto_co w)); cbv beta iota zeta delta [mbind M_bind bind sleep ret] in *.
    + intros [= <-]. left. reflexivity.
    + destruct (check_auto_flush_body _) as [[] w1]. intros [= <-]. left. exact H.
Qed.

Lemma run_app (l1 l2 : list label) (w : world) :
  run (l1 ++ l2) w = match run l1 w with Some w1 => run l2 w1 | None => None end.
Proof.
  revert w. induction l1 as [|l l1 IH]; intros w; cbn [run app]; [reflexivity|].
  destruct (step l w); [apply IH|reflexivity].
Qed.

(** The file is the one found at start-up, or a dump of [CONFIG] as it was
    at some point of the run. *)
Lemma run_FILE (ls : list label) (w w' : world) :
  run ls w = Some w' ->
  CONFIG_FILE w' = CONFIG_FILE w \/
  exists ls1 w1, run ls1 w = Some w1 /\ CONFIG_FILE w' = Some (Json (CONFIG w1)).
Proof.
  revert w. induction ls as [|l ls IH]; intros w; cbn [run].
  - intros [= <-]. left. reflexivity.
  - destruct (step l w) as [wa|] eqn:E; [|discriminate].
    intros Hr. destruct (IH _ Hr) as [Hf|(ls1 & w1 & Hr1 & Hf)].
    + destruct (step_FILE _ _ _ E) as [Ha|Ha].
      * left. congruence.
      * right. exists [l], wa. cbn [run]. rewrite E. split; [reflexivity|congruence].
    + right. exists (l :: ls1), w1. cbn [run]. rewrite E. auto.
Qed.

(** What start-up and a run establish about [CONFIG]. *)
Lemma reached_config
    (t0 : Z) (f : option file_content) (w0 w : world) (ls : list label) :
  main t0 f = Ok w0 -> run ls w0 = Some w ->
  exists d, read_config (power_on t0 f) = Ok (Dict d) /\ CONFIG w0 = d ∪ default_CONFIG /\
            CONFIG_FILE w0 = f /\
            (forall k, k ∈ config_keys -> is_Some (CONFIG w !! k)) /\
            (forall k, k <> "filter_sec" -> CONFIG w !! k = CONFIG w0 !! k).
Proof.
  intros Hm Hr. destruct (main_ok_inv _ _ _ Hm) as (d & Hd).
  destruct (main_ok t0 f d Hd) as (w00 & Hw & Hc & Hf0 & _).
  rewrite Hm in Hw. injection Hw as <-.
  destruct (run_CONFIG _ _ _ Hr) as [Hk Hf].
  exists d. split; [exact Hd|]. split; [exact Hc|]. split; [exact Hf0|].
  assert (H0 : forall k, k ∈ config_keys -> is_Some (CONFIG w0 !! k)).
  { intros k Hin. rewrite Hc. apply lookup_union_is_Some. right.
    apply default_CONFIG_keys, Hin. }
  split; [|exact Hk].
  intros k Hin. destruct (decide (k = "filter_sec")) as [->|Hne].
  - apply Hf, H0, Hin.
  - rewrite Hk by exact Hne. apply H0, Hin.
Qed.

Lemma nine_keys_present (w : world) (k : string) :
  reachable w -> k ∈ config_keys -> is_Some (CONFIG w !! k).
Proof.
  intros (t0 & f & w0 & ls & Hm & Hr) Hin.
  destruct (reached_config _ _ _ _ _ Hm Hr) as (_ & _ & _ & _ & Hkeys & _).
  apply Hkeys, Hin.
Qed.

Lemma union_default_absorbed (c : gmap string Z) :
  (forall k, k ∈ config_keys -> is_Some (c !! k)) -> c ∪ default_CONFIG = c.
Proof.
  intros Hkeys. apply map_eq. intros k.
  destruct (c !! k) as [v|] eqn:E.
  - apply lookup_union_Some_l. exact E.
  - rewrite lookup_union_r by exact E.
    destruct (default_CONFIG !! k) as [v|] eqn:E2; [|reflexivity].
    assert (Hin : k ∈ config_keys) by (apply default_CONFIG_only_keys; rewrite E2; eauto).
    destruct (Hkeys k Hin) as [x Hx]. congruence.
Qed.

(** X5: Whatever the program did since a successful start-up, the file it
    leaves behind can be read at the next start-up, which does not raise and
    gives every key but [filter_sec] the value it has now; the nine keys are
    all there. *)
Theorem restart_after_any_run
    (t0 t1 : Z) (f : option file_content) (w0 w : world) (ls : list label) :
  main t0 f = Ok w0 -> run ls w0 = Some w ->
  exists w1, main t1 (CONFIG_FILE w) = Ok w1 /\
             (forall k, k <> "filter_sec" -> CONFIG w1 !! k = CONFIG w !! k) /\
             (forall k, k ∈ config_keys -> is_Some (CONFIG w1 !! k)).
Proof.
  intros Hm Hr.
  destruct (reached_config _ _ _ _ _ Hm Hr) as (d & Hd & Hc0 & Hf0 & Hkeys & Hk).
  assert (H0 : forall k, k ∈ config_keys -> is_Some (CONFIG w0 !! k)).
  { intros k Hin. rewrite Hc0. apply lookup_union_is_Some. right.
    apply default_CONFIG_keys, Hin. }
  destruct (run_FILE _ _ _ Hr) as [Hf|(ls1 & wp & Hrp & Hf)].
  - rewrite Hf, Hf0.
    destruct (main_ok t1 f d) as (w1 & Hm1 & Hc1 & _).
    { clear -Hd. unfold read_config, power_on in *. exact Hd. }
    exists w1. split; [exact Hm1|]. rewrite Hc1, <- Hc0. split.
    + intros k Hne. symmetry. apply Hk, Hne.
    + exact H0.
  - rewrite Hf.
    destruct (reached_config _ _ _ _ _ Hm Hrp) as (_ & _ & _ & _ & Hkeysp & Hkp).
    destruct (main_ok t1 (Some (Json (CONFIG wp))) (CONFIG wp) eq_refl)
      as (w1 & Hm1 & Hc1 & _).
    exists w1. split; [exact Hm1|].
    rewrite Hc1, (union_default_absorbed _ Hkeysp). split.
    + intros k Hne. rewrite Hkp, Hk by exact Hne. reflexivity.
    + exact Hkeysp.
Qed.

Lemma restart_after_any_run_witness :
  let w := world_with None long_press_while_filtering 116600 in
  exists w1, main 0 (CONFIG_FILE w) = Ok w1 /\
             (forall k, k <> "filter_sec" -> CONFIG w1 !! k = CONFIG w !! k) /\
             (forall k, k ∈ config_keys -> is_Some (CONFIG w1 !! k)).
Proof.
  intros w.
  exact (restart_after_any_run T0 0 None (started_with None) w
           (schedule long_press_while_filtering (at_ms 116600) (Z.to_nat 116600)
              (started_with None))
           (started_with_ok None ∅ eq_refl) (run_schedule _ _ _ _)).
Defined.

(** X6: The duration saved by a long press is what the next start-up loads: the
    file written at the dispatch gives back the whole of [CONFIG], with the
    new [filter_sec]. *)
Theorem saved_duration_survives_restart
    (t0 t1 : Z) (f : option file_content) (w0 w w' : world) (ls : list label)
    (sl l pressed : bool) (now : Z) :
  main t0 f = Ok w0 -> run ls w0 = Some w ->
  fst (button_co w) = HB_beep sl l -> press_of_flags sl l = Long ->
  task_done w = false -> running_task_type w = Some FILTERING ->
  step (RunButton pressed now) w = Some w' ->
  exists w1, main t1 (CONFIG_FILE w') = Ok w1 /\ CONFIG w1 = CONFIG w' /\
             CONFIG w1 !! "filter_sec" = Some (now / 1000 - start_filtering w).
Proof.
  intros Hm Hrun Hb Hp Hd Hty Hstep.
  assert (Hrun' : run (ls ++ [RunButton pressed now]) w0 = Some w').
  { rewrite run_app, Hrun. cbn [run]. rewrite Hstep. reflexivity. }
  destruct (reached_config _ _ _ _ _ Hm Hrun') as (_ & _ & _ & _ & Hkeys & _).
  destruct (dispatch_turn w w' sl l pressed now Hb Hstep) as (Ec & Ef & _).
  destruct (before_dispatch w now) as (Bc & Bt & Br & Bty & Bs & Bk & Bd).
  set (v := exec (buzzer_duty_u16 0) (set_clock now w)) in *.
  rewrite <- Bd in Hd. rewrite <- Bty in Hty.
  destruct (running_task_not_done v Hd) as (i & t & Hr & Ht & Hpc).
  destruct (long_press_dispatch v sl l i t Hp Hr Ht Hpc Hty) as (Hc & Hf & _).
  rewrite <- Ec, <- Ef, Bk, Bs, Bc in *.
  destruct (main_ok t1 (Some (Json (CONFIG w'))) (CONFIG w') eq_refl)
    as (w1 & Hm1 & Hc1 & _).
  exists w1. rewrite Hf. split; [exact Hm1|].
  rewrite Hc1, (union_default_absorbed _ Hkeys). split; [reflexivity|].
  rewrite Hc. apply lookup_insert_eq.
Qed.

Lemma saved_duration_survives_restart_witness :
  let w := world_with None long_press_while_filtering 116599 in
  let w' := after_turn (RunButton false (at_ms 116600)) w in
  exists w1, main 0 (CONFIG_FILE w') = Ok w1 /\ CONFIG w1 = CONFIG w' /\
             CONFIG w1 !! "filter_sec" = Some (at_ms 116600 / 1000 - start_filtering w).
Proof.
  intros w w'.
  assert (Hb : fst (button_co w) = HB_beep false true) by (vm_compute; reflexivity).
  assert (Hd : task_done w = false) by (vm_compute; reflexivity).
  assert (Hty : running_task_type w = Some FILTERING) by (vm_compute; reflexivity).
  assert (Hstep : step (RunButton false (at_ms 116600)) w = Some w')
    by (vm_compute; reflexivity).
  exact (saved_duration_survives_restart T0 0 None (started_with None) w w'
           (schedule long_press_while_filtering (at_ms 116599) (Z.to_nat 116599)
              (started_with None))
           false true false (at_ms 116600)
           (started_with_ok None ∅ eq_refl) (run_schedule _ _ _ _)
           Hb eq_refl Hd Hty Hstep).
Defined.

(** ** Sequences that run alone *)

Lemma run_task_turn (w : world) (i : nat) (t : task) (now : Z) (ls : list label) :
  tasks w !! i = Some t -> t_cancel t = false -> pc_done (t_pc t) = false ->
  (clock w <=? now) = true -> (t_wake t <=? now) = true ->
  run (RunTask i now :: ls) w = run ls (finish_turn i (resume (t_pc t) (set_clock now w))).
Proof.
  intros Ht Hc Hd Hk Hw. cbn [run]. unfold step, finish_turn.
  rewrite Ht, Hk, Hw, Hd, Hc. cbn [andb negb].
  destruct (resume (t_pc t) (set_clock now w)) as [[p ms] w1]. reflexivity.
Qed.

Lemma run_task_throw (w : world) (i : nat) (t : task) (now : Z) (ls : list label) :
  tasks w !! i = Some t -> t_cancel t = true -> pc_done (t_pc t) = false ->
  (clock w <=? now) = true -> (t_wake t <=? now) = true ->
  run (RunTask i now :: ls) w = run ls (finish_turn i (throw (t_pc t) (set_clock now w))).
Proof.
  intros Ht Hc Hd Hk Hw. cbn [run]. unfold step, finish_turn.
  rewrite Ht, Hk, Hw, Hd, Hc. cbn [andb negb].
  destruct (throw (t_pc t) (set_clock now w)) as [[p ms] w1]. reflexivity.
Qed.

Ltac exec_T :=
  cbv beta iota zeta delta [finish_turn due t_pc t_wake t_cancel pc_done]; exec_M;
  rewrite ?list_insert_insert_eq.

(** One turn of task [i] in a world given field by field; [Hi] bounds [i]. *)
Ltac solo_turn Hi :=
  erewrite run_task_turn;
  [
  | cbn [tasks]; first [eassumption | apply list_lookup_insert_eq; exact Hi]
  | reflexivity
  | reflexivity
  | cbn [clock]; apply leb_true; lia
  | cbn [t_wake]; apply leb_true; lia ];
  exec_T.

Ltac trace_eq :=
  unfold cleanup_events, finish_beeps_events, writes_flush, writes_disposal, writes_filter,
    writes_drain, writes_closed;
  rewrite <- ?app_assoc; cbn [app]; reflexivity.

(** X7: An automatic flush that is not cancelled takes seven turns of its
    task: it sets the Flush layout, switches the pump on after the pump
    switch delay, flushes, disposes, flushes again, switches the pump off,
    waits the delay, drains for 2 s and closes the valves.  The loop may run
    a turn late.  In the end the task is finished, the pump is off, the
    valves are closed, [last_flush] is the time of the last turn and
    [last_filtering] is what it was. *)
Theorem auto_flush_alone
    (w : world) (i : nat) (wk n0 n1 n2 n3 n4 n5 n6 : Z) :
  tasks w !! i = Some (Task AF_start wk false) ->
  clock w <= n0 -> wk <= n0 ->
  n0 + Z.max 0 (config_get (CONFIG w) "pump_switch_delay") <= n1 ->
  n1 + Z.max 0 (1000 * config_get (CONFIG w) "pre_flush_sec") <= n2 ->
  n2 + Z.max 0 (1000 * config_get (CONFIG w) "disposal_sec") <= n3 ->
  n3 + Z.max 0 (1000 * config_get (CONFIG w) "post_flush_sec") <= n4 ->
  n4 + Z.max 0 (config_get (CONFIG w) "pump_switch_delay") <= n5 ->
  n5 + 2000 <= n6 ->
  exists w',
    run [RunTask i n0; RunTask i n1; RunTask i n2; RunTask i n3;
         RunTask i n4; RunTask i n5; RunTask i n6] w = Some w' /\
    t_pc <$> tasks w' !! i = Some Done /\
    pump_on w' = false /\ valves w' = Some Closed /\
    last_flush w' = n6 / 1000 /\ last_filtering w' = last_filtering w /\
    running_task_type w' = Some FLUSHING /\
    console w' = console w ++
      [Print MsgAutoFlushFilter; Print (MsgPreFlush (config_get (CONFIG w) "pre_flush_sec"))] ++
      writes_flush ++
      [Print (MsgPump true); PinWrite Pump true;
       Print (MsgDispose (config_get (CONFIG w) "disposal_sec"))] ++
      writes_disposal ++
      [Print (MsgPostFlush (config_get (CONFIG w) "post_flush_sec"))] ++
      writes_flush ++
      [Print (MsgPump false); PinWrite Pump false; Print MsgClosingInlet] ++
      writes_drain ++ [Print MsgClosingValves] ++ writes_closed ++ [Print MsgNewline].
Proof.
  intros Ht Hk Hw H1 H2 H3 H4 H5 H6.
  assert (Hi : (i < length (tasks w))%nat) by (eapply lookup_lt_Some; exact Ht).
  destruct w as [[] ]. cbn [tasks clock CONFIG console last_filtering] in *.
  eexists. split.
  { do 7 solo_turn Hi. reflexivity. }
  cbn [tasks]. rewrite (list_lookup_insert_eq _ _ _ Hi). exec_M.
  repeat (split; [reflexivity|]). trace_eq.
Qed.

Lemma auto_flush_alone_witness :
  let w := start_auto_flush started in
  exists w',
    run [RunTask 0 (at_ms 0); RunTask 0 (at_ms 1000); RunTask 0 (at_ms 11000);
         RunTask 0 (at_ms 71000); RunTask 0 (at_ms 101000); RunTask 0 (at_ms 102000);
         RunTask 0 (at_ms 104000)] w = Some w' /\
    pump_on w' = false /\ valves w' = Some Closed /\ last_flush w' = at_ms 104000 / 1000.
Proof.
  intros w.
  destruct (auto_flush_alone w 0 (at_ms 0) (at_ms 0) (at_ms 1000) (at_ms 11000)
              (at_ms 71000) (at_ms 101000) (at_ms 102000) (at_ms 104000))
    as (w' & Hr & _ & Hp & Hv & Hf & _);
    try (vm_compute; first [reflexivity | discriminate]).
  exists w'. auto.
Defined.

(** X8: A long flush takes two turns of its task.  It sets the Flush layout and
    waits [long_flush_sec]; it writes no other pin: it never switches the
    pump, and when it is over the valves are still in the Flush layout. *)
Theorem long_flush_alone (w : world) (i : nat) (wk n0 n1 : Z) :
  tasks w !! i = Some (Task LF_start wk false) ->
  clock w <= n0 -> wk <= n0 ->
  n0 + Z.max 0 (1000 * config_get (CONFIG w) "long_flush_sec") <= n1 ->
  exists w',
    run [RunTask i n0; RunTask i n1] w = Some w' /\
    t_pc <$> tasks w' !! i = Some Done /\
    pump_on w' = pump_on w /\ valves w' = Some Flush /\
    last_flush w' = n1 / 1000 /\ last_filtering w' = last_filtering w /\
    running_task_type w' = Some FLUSHING /\
    console w' = console w ++
      [Print (MsgLongFlush (config_get (CONFIG w) "long_flush_sec"))] ++ writes_flush.
Proof.
  intros Ht Hk Hw H1.
  assert (Hi : (i < length (tasks w))%nat) by (eapply lookup_lt_Some; exact Ht).
  destruct w as [[] ]. cbn [tasks clock CONFIG console last_filtering] in *.
  eexists. split.
  { do 2 solo_turn Hi. reflexivity. }
  cbn [tasks]. rewrite (list_lookup_insert_eq _ _ _ Hi). exec_M.
  repeat (split; [reflexivity|]). trace_eq.
Qed.

Lemma long_flush_alone_witness :
  let w := exec (create_task LF_start) started in
  exists w',
    run [RunTask 0 (at_ms 0); RunTask 0 (at_ms 900000)] w = Some w' /\
    pump_on w' = false /\ valves w' = Some Flush.
Proof.
  intros w.
  destruct (long_flush_alone w 0 (at_ms 0) (at_ms 0) (at_ms 900000))
    as (w' & Hr & _ & Hp & Hv & _);
    try (vm_compute; first [reflexivity | discriminate]).
  exists w'. split; [exact Hr|]. split; [|exact Hv].
  rewrite Hp. vm_compute. reflexivity.
Defined.

(** X9: A filtration of clean water that is not cancelled takes eleven turns of
    its task.  [duration_sec] is the argument, or [CONFIG['filter_sec']] as
    it is when the task starts.  The valves go to Filter, the pump is
    switched on after the pump switch delay, and after [duration_sec] the
    three beeps and the cleanup follow.  In the end the pump is off, the
    valves are closed and the buzzer is silent; [start_filtering] is the time
    of the first turn, [last_flush] the end of the post-flush,
    [last_filtering] the end of the cleanup, and [running_task_type] is left
    at ['FLUSHING']. *)
Theorem filtration_alone
    (w : world) (i : nat) (arg : option Z) (wk n0 n1 n2 n3 n4 n5 n6 n7 n8 n9 n10 : Z) :
  let duration_sec := default (config_get (CONFIG w) "filter_sec") arg in
  tasks w !! i = Some (Task (FW_start arg) wk false) ->
  clock w <= n0 -> wk <= n0 ->
  n0 / 1000 - Z.max (last_flush w) (last_filtering w)
    <= config_get (CONFIG w) "water_clean_sec" ->
  n0 + Z.max 0 (config_get (CONFIG w) "pump_switch_delay") <= n1 ->
  n1 + Z.max 0 (1000 * duration_sec) <= n2 ->
  n2 + 400 <= n3 -> n3 + 200 <= n4 -> n4 + 400 <= n5 -> n5 + 200 <= n6 -> n6 + 400 <= n7 ->
  n7 + Z.max 0 (1000 * config_get (CONFIG w) "post_flush_sec") <= n8 ->
  n8 + Z.max 0 (config_get (CONFIG w) "pump_switch_delay") <= n9 ->
  n9 + 2000 <= n10 ->
  exists w',
    run [RunTask i n0; RunTask i n1; RunTask i n2; RunTask i n3; RunTask i n4; RunTask i n5;
         RunTask i n6; RunTask i n7; RunTask i n8; RunTask i n9; RunTask i n10] w = Some w' /\
    t_pc <$> tasks w' !! i = Some Done /\
    pump_on w' = false /\ valves w' = Some Closed /\ BUZZER_duty (hw w') = 0 /\
    start_filtering w' = n0 / 1000 /\ last_flush w' = n8 / 1000 /\
    last_filtering w' = n10 / 1000 /\
    running_task_type w' = Some FLUSHING /\
    console w' = console w ++
      [Print (MsgFilterWater duration_sec)] ++ writes_filter ++
      [Print (MsgPump true); PinWrite Pump true; Print MsgFilteringDone] ++
      finish_beeps_events (config_get (CONFIG w) "buzzer_frequency") ++
      cleanup_events (config_get (CONFIG w) "post_flush_sec").
Proof.
  intros d Ht Hk Hw Hclean H1 H2 H3 H4 H5 H6 H7 H8 H9 H10. subst d.
  assert (Hi : (i < length (tasks w))%nat) by (eapply lookup_lt_Some; exact Ht).
  destruct w as [[] ]. cbn [tasks clock CONFIG console last_flush last_filtering] in *.
  apply Z.ltb_ge in Hclean.
  eexists. split.
  { solo_turn Hi. unfold flush_needed. exec_T. rewrite Hclean. exec_T.
    do 10 solo_turn Hi. reflexivity. }
  cbn [tasks]. rewrite (list_lookup_insert_eq _ _ _ Hi). exec_M.
  repeat (split; [reflexivity|]). trace_eq.
Qed.

Lemma filtration_alone_witness :
  let w := after_turn (RunButton false (at_ms 140300)) (world_at tap_after_cleanup 140299) in
  tasks w !! 1%nat = Some (Task (FW_start None) (at_ms 140300) false) /\
  exists w',
    run [RunTask 1 (at_ms 140300); RunTask 1 (at_ms 141300); RunTask 1 (at_ms 861300);
         RunTask 1 (at_ms 861700); RunTask 1 (at_ms 861900); RunTask 1 (at_ms 862300);
         RunTask 1 (at_ms 862500); RunTask 1 (at_ms 862900); RunTask 1 (at_ms 892900);
         RunTask 1 (at_ms 893900); RunTask 1 (at_ms 895900)] w = Some w' /\
    pump_on w' = false /\ valves w' = Some Closed /\
    last_filtering w' = at_ms 895900 / 1000.
Proof.
  intros w.
  assert (Ht : tasks w !! 1%nat = Some (Task (FW_start None) (at_ms 140300) false))
    by (vm_compute; reflexivity).
  split; [exact Ht|].
  destruct (filtration_alone w 1 None (at_ms 140300) (at_ms 140300) (at_ms 141300)
              (at_ms 861300) (at_ms 861700) (at_ms 861900) (at_ms 862300) (at_ms 862500)
              (at_ms 862900) (at_ms 892900) (at_ms 893900) (at_ms 895900) Ht)
    as (w' & Hr & _ & Hp & Hv & _ & _ & _ & Hf & _);
    try (lazymatch goal with |- (_ <= _)%Z => idtac | |- (_ < _)%Z => idtac end;
         vm_compute; first [reflexivity | discriminate]).
  exists w'. auto.
Defined.

(** X10: A filtration that starts with the pre-flush takes fourteen turns of its
    task: Flush layout, pump on after the delay, [pre_flush_sec] of flushing,
    [disposal_sec] of disposal, and then the filtration as above.  The pump
    keeps running while the valves go from Disposal to Filter, and
    [set_pump(True)] is called a second time; [start_filtering] is the end of
    the disposal. *)
Theorem filtration_with_pre_flush_alone
    (w : world) (i : nat) (arg : option Z)
    (wk n0 n1 n2 n3 n4 n5 n6 n7 n8 n9 n10 n11 n12 n13 : Z) :
  let duration_sec := default (config_get (CONFIG w) "filter_sec") arg in
  tasks w !! i = Some (Task (FW_start arg) wk false) ->
  clock w <= n0 -> wk <= n0 ->
  config_get (CONFIG w) "water_clean_sec"
    < n0 / 1000 - Z.max (last_flush w) (last_filtering w) ->
  n0 + Z.max 0 (config_get (CONFIG w) "pump_switch_delay") <= n1 ->
  n1 + Z.max 0 (1000 * config_get (CONFIG w) "pre_flush_sec") <= n2 ->
  n2 + Z.max 0 (1000 * config_get (CONFIG w) "disposal_sec") <= n3 ->
  n3 + Z.max 0 (config_get (CONFIG w) "pump_switch_delay") <= n4 ->
  n4 + Z.max 0 (1000 * duration_sec) <= n5 ->
  n5 + 400 <= n6 -> n6 + 200 <= n7 -> n7 + 400 <= n8 -> n8 + 200 <= n9 -> n9 + 400 <= n10 ->
  n10 + Z.max 0 (1000 * config_get (CONFIG w) "post_flush_sec") <= n11 ->
  n11 + Z.max 0 (config_get (CONFIG w) "pump_switch_delay") <= n12 ->
  n12 + 2000 <= n13 ->
  exists w',
    run [RunTask i n0; RunTask i n1; RunTask i n2; RunTask i n3; RunTask i n4; RunTask i n5;
         RunTask i n6; RunTask i n7; RunTask i n8; RunTask i n9; RunTask i n10;
         RunTask i n11; RunTask i n12; RunTask i n13] w = Some w' /\
    t_pc <$> tasks w' !! i = Some Done /\
    pump_on w' = false /\ valves w' = Some Closed /\ BUZZER_duty (hw w') = 0 /\
    start_filtering w' = n3 / 1000 /\ last_flush w' = n11 / 1000 /\
    last_filtering w' = n13 / 1000 /\
    running_task_type w' = Some FLUSHING /\
    console w' = console w ++
      [Print (MsgPreFlush (config_get (CONFIG w) "pre_flush_sec"))] ++ writes_flush ++
      [Print (MsgPump true); PinWrite Pump true;
       Print (MsgDispose (config_get (CONFIG w) "disposal_sec"))] ++ writes_disposal ++
      [Print (MsgFilterWater duration_sec)] ++ writes_filter ++
      [Print (MsgPump true); PinWrite Pump true; Print MsgFilteringDone] ++
      finish_beeps_events (config_get (CONFIG w) "buzzer_frequency") ++
      cleanup_events (config_get (CONFIG w) "post_flush_sec").
Proof.
  intros d Ht Hk Hw Hdirty H1 H2 H3 H4 H5 H6 H7 H8 H9 H10 H11 H12 H13. subst d.
  assert (Hi : (i < length (tasks w))%nat) by (eapply lookup_lt_Some; exact Ht).
  destruct w as [[] ]. cbn [tasks clock CONFIG console last_flush last_filtering] in *.
  apply Z.ltb_lt in Hdirty.
  eexists. split.
  { solo_turn Hi. unfold flush_needed. exec_T. rewrite Hdirty. exec_T.
    do 13 solo_turn Hi. reflexivity. }
  cbn [tasks]. rewrite (list_lookup_insert_eq _ _ _ Hi). exec_M.
  repeat (split; [reflexivity|]). trace_eq.
Qed.

Lemma filtration_with_pre_flush_alone_witness :
  let w := after_turn (RunButton false (at_ms 600)) (world_at tap_to_filter 599) in
  tasks w !! 0%nat = Some (Task (FW_start None) (at_ms 600) false) /\
  exists w',
    run [RunTask 0 (at_ms 600); RunTask 0 (at_ms 1600); RunTask 0 (at_ms 11600);
         RunTask 0 (at_ms 71600); RunTask 0 (at_ms 72600); RunTask 0 (at_ms 792600);
         RunTask 0 (at_ms 793000); RunTask 0 (at_ms 793200); RunTask 0 (at_ms 793600);
         RunTask 0 (at_ms 793800); RunTask 0 (at_ms 794200); RunTask 0 (at_ms 824200);
         RunTask 0 (at_ms 825200); RunTask 0 (at_ms 827200)] w = Some w' /\
    pump_on w' = false /\ valves w' = Some Closed /\
    start_filtering w' = at_ms 71600 / 1000.
Proof.
  intros w.
  assert (Ht : tasks w !! 0%nat = Some (Task (FW_start None) (at_ms 600) false))
    by (vm_compute; reflexivity).
  split; [exact Ht|].
  destruct (filtration_with_pre_flush_alone w 0 None (at_ms 600) (at_ms 600) (at_ms 1600)
              (at_ms 11600) (at_ms 71600) (at_ms 72600) (at_ms 792600) (at_ms 793000)
              (at_ms 793200) (at_ms 793600) (at_ms 793800) (at_ms 794200) (at_ms 824200)
              (at_ms 825200) (at_ms 827200) Ht)
    as (w' & Hr & _ & Hp & Hv & _ & Hs & _);
    try (lazymatch goal with |- (_ <= _)%Z => idtac | |- (_ < _)%Z => idtac end;
         vm_compute; first [reflexivity | discriminate]).
  exists w'. auto.
Defined.

(** ** What a press starts *)

(** X11: A press that is dispatched while no task runs starts exactly one
    sequence: the long flush for a super-long press, a filtration of one hour
    for a long press, a filtration of [CONFIG['filter_sec']] for a short
    press.  The new task is due at once and becomes the running task; no
    other task is changed, and no pin, time stamp or configuration value is
    written. *)
Theorem idle_dispatch (w : world) (sl l : bool) :
  task_done w = true ->
  let w' := exec (decide_action sl l) w in
  tasks w' = tasks w ++ [Task (sequence_for (press_of_flags sl l)) (clock w) false] /\
  running_task w' = Some (length (tasks w)) /\
  hw w' = hw w /\ CONFIG w' = CONFIG w /\ CONFIG_FILE w' = CONFIG_FILE w /\
  last_flush w' = last_flush w /\ last_filtering w' = last_filtering w /\
  running_task_type w' = running_task_type w.
Proof.
  intros Hd. destruct w as [[] ]. unfold exec, decide_action.
  exec_M. rewrite Hd. destruct sl, l; exec_M; cbn; auto 10.
Qed.

Lemma idle_dispatch_witness :
  tasks (exec (decide_action false false) started) = [Task (FW_start None) (at_ms 0) false].
Proof.
  refine (proj1 (idle_dispatch started false false _)). vm_compute. reflexivity.
Defined.

(** X12: A press that is dispatched while a task runs, when the press is
    super-long or the running task is in a flush ([running_task_type] is
    ['FLUSHING']: an automatic or long flush, or the pre-flush or the cleanup
    of a filtration), cancels the task and starts a new sequence in its
    place, chosen by the press as above.  The dispatch saves nothing and
    writes no pin. *)
Theorem busy_dispatch (w : world) (sl l : bool) (i : nat) (t : task) :
  running_task w = Some i -> tasks w !! i = Some t -> pc_done (t_pc t) = false ->
  press_of_flags sl l = SuperLong \/ running_task_type w = Some FLUSHING ->
  let w' := exec (decide_action sl l) w in
  tasks w' = <[i := cancelled (clock w) t]> (tasks w) ++
             [Task (sequence_for (press_of_flags sl l)) (clock w) false] /\
  running_task w' = Some (length (tasks w)) /\
  hw w' = hw w /\ CONFIG w' = CONFIG w /\ CONFIG_FILE w' = CONFIG_FILE w /\
  last_flush w' = last_flush w /\ last_filtering w' = last_filtering w.
Proof.
  intros Hr Ht Hd Hc.
  destruct w as [[] ]. cbn [running_task tasks running_task_type clock] in *. subst.
  unfold cancelled, exec, decide_action, running_task_cancel, task_done, cancel_task.
  exec_M. rewrite Ht, Hd. exec_M. rewrite Ht, Hd. exec_M.
  destruct Hc as [Hc| ->].
  - destruct sl, l; try discriminate; exec_M; rewrite length_insert; cbn; auto 10.
  - destruct sl, l; cbn [type_is task_type_eqb andb]; exec_M; rewrite length_insert;
      cbn; auto 10.
Qed.

Lemma busy_dispatch_witness :
  let w := world_at super_long_press_in_pre_flush 8999 in
  running_task w = Some 0%nat /\
  pcs (exec (decide_action true false) w) = [FW_pre 720; LF_start] /\
  running_task (exec (decide_action true false) w) = Some 1%nat.
Proof.
  intros w.
  assert (Hr : running_task w = Some 0%nat) by (vm_compute; reflexivity).
  assert (Ht : tasks w !! 0%nat = Some (Task (FW_pre 720) (at_ms 11600) false))
    by (vm_compute; reflexivity).
  split; [exact Hr|].
  destruct (busy_dispatch w true false 0 _ Hr Ht eq_refl (or_introl eq_refl))
    as (Hts & Hrt & _).
  split; [|rewrite Hrt; vm_compute; reflexivity].
  unfold pcs. rewrite Hts. vm_compute. reflexivity.
Defined.

(** ** What the two loops leave alone *)

Lemma decide_action_relays (sl l : bool) (w : world) :
  let w' := exec (decide_action sl l) w in
  relays w' = relays w /\ last_flush w' = last_flush w /\
  last_filtering w' = last_filtering w /\ start_filtering w' = start_filtering w.
Proof.
  unfold relays, exec, decide_action, running_task_cancel.
  destruct w as [[] ]. exec_M. destruct (task_done _); exec_M.
  - destruct sl, l; exec_M; cbn; auto.
  - destruct running_task0 as [i|]; unfold cancel_task; cbn [tasks];
      [destruct (tasks0 !! i) as [t|]; [destruct (pc_done (t_pc t))|]|];
      destruct sl, l, running_task_type0 as [[]|];
      cbn [type_is task_type_eqb andb]; exec_M; cbn; auto.
Qed.

(** X13: The button loop and the monitor loop never write a relay pin and never
    change [last_flush], [last_filtering] or [start_filtering]: a turn of
    either leaves the four valves and the pump as they are, also the turn
    that cancels a task or starts one.  Only the sequences move water. *)
Theorem loops_leave_relays (pressed : bool) (now : Z) (w w' : world) :
  step (RunButton pressed now) w = Some w' \/ step (RunAuto now) w = Some w' ->
  relays w' = relays w /\ last_flush w' = last_flush w /\
  last_filtering w' = last_filtering w /\ start_filtering w' = start_filtering w.
Proof.
  unfold step. intros [H|H]; revert H.
  - destruct (_ && _); [|discriminate].
    destruct (button_co w) as [p wk] eqn:Eb. cbn [fst].
    destruct p as [| |ms_start|sl l].
    1-3: destruct w as [[] ]; unfold relays; destruct pressed; exec_M;
         try (destruct (super_long_pressed_of _); try destruct (long_pressed_of _); exec_M);
         intros [= <-]; cbn; auto.
    pose proof (decide_action_relays sl l (exec (buzzer_duty_u16 0) (set_clock now w)))
      as (Hr & Hf & Hg & Hs).
    assert (E : forall v, exists pm,
              handle_button pressed (HB_beep sl l) v =
              (pm, exec (decide_action sl l) (exec (buzzer_duty_u16 0) v))).
    { intros v. unfold handle_button, exec.
      cbv beta iota zeta delta [mbind M_bind bind snd].
      destruct (buzzer_duty_u16 0 v) as [[] v1].
      destruct (decide_action sl l v1) as [[] v2].
      destruct v2 as [[] ]. destruct pressed; exec_M; eexists; reflexivity. }
    destruct (E (set_clock now w)) as [[p ms] ->]. intros [= <-].
    revert Hr Hf Hg Hs.
    generalize (exec (decide_action sl l) (exec (buzzer_duty_u16 0) (set_clock now w))).
    intros v. destruct v as [[] ]. destruct w as [[] ]. unfold relays. exec_M.
    intros Hr Hf Hg Hs. cbn in *. repeat split; congruence.
  - destruct (_ && _); [|discriminate].
    destruct (auto_co w) as [p wk]. cbn [fst].
    destruct p.
    + destruct w as [[] ]. unfold relays. exec_M. intros [= <-]. cbn. auto.
    + pose proof (check_auto_flush_body_eq (set_clock now w)) as Hb.
      unfold check_auto_flush. unfold exec in Hb.
      cbv beta iota zeta delta [mbind M_bind bind snd sleep ret mret M_ret] in Hb |- *.
      destruct (check_auto_flush_body (set_clock now w)) as [[] v]. cbn [snd] in Hb. subst v.
      destruct (_ && _); destruct w as [[] ]; unfold relays, start_auto_flush; exec_M;
        intros [= <-]; cbn; auto.
Qed.

(** The theorem at the second tap of the tap scenario: the turn that cancels
    the filtration leaves the pump running in the Filter layout. *)
Lemma loops_leave_relays_witness :
  let w := world_at tap_while_filtering 100299 in
  let w' := after_turn (RunButton false (at_ms 100300)) w in
  step (RunButton false (at_ms 100300)) w = Some w' /\
  relays w' = relays w /\ pump_on w = true /\ valves w = Some Filter.
Proof.
  intros w w'.
  assert (Hs : step (RunButton false (at_ms 100300)) w = Some w') by (vm_compute; reflexivity).
  split; [exact Hs|].
  split; [exact (proj1 (loops_leave_relays false (at_ms 100300) w w' (or_introl Hs)))|].
  vm_compute. auto.
Defined.

(** ** The millisecond counter *)

Lemma wrapped_reading (c held : Z) :
  0 <= held < TICKS_PERIOD -> c mod TICKS_PERIOD < held ->
  c mod TICKS_PERIOD - (c - held) mod TICKS_PERIOD = held - TICKS_PERIOD.
Proof.
  intros Hh Hr.
  assert (HP : 0 < TICKS_PERIOD) by reflexivity.
  pose proof (Z.mod_pos_bound c TICKS_PERIOD HP) as Hb.
  pose proof (Z.div_mod c TICKS_PERIOD ltac:(lia)) as Hc.
  assert (E : (c - held) mod TICKS_PERIOD = c mod TICKS_PERIOD - held + TICKS_PERIOD).
  { symmetry. apply (Z.mod_unique_pos _ _ (c / TICKS_PERIOD - 1)); lia. }
  lia.
Qed.

(** X14: [handle_button] subtracts two readings of [time.ticks_ms()].  When the
    counter wraps while the button is held, the difference is negative, and
    the press counts as short however long the button was held (for holds
    shorter than the period of the counter): the loop goes on to the short
    beep of 200 ms with both flags down. *)
Theorem counter_wrap_makes_press_short (w : world) (held : Z) :
  0 <= held < TICKS_PERIOD -> clock w mod TICKS_PERIOD < held ->
  let ms_start := (clock w - held) mod TICKS_PERIOD in
  fst (handle_button false (HB_wait_release ms_start) w) = (HB_beep false false, 200) /\
  classify (clock w mod TICKS_PERIOD - ms_start) = Short.
Proof.
  intros Hh Hr ms_start. subst ms_start.
  pose proof (wrapped_reading (clock w) held Hh Hr) as E.
  assert (Hs : super_long_pressed_of (clock w mod TICKS_PERIOD - (clock w - held) mod TICKS_PERIOD)
               = false).
  { rewrite E. unfold super_long_pressed_of. apply Z.leb_gt. lia. }
  assert (Hl : long_pressed_of (clock w mod TICKS_PERIOD - (clock w - held) mod TICKS_PERIOD)
               = false).
  { rewrite E. unfold long_pressed_of. apply andb_false_iff. left. apply Z.ltb_ge. lia. }
  split.
  - destruct w as [[] ]. cbn [clock] in *. exec_M. rewrite Hs, Hl. reflexivity.
  - unfold classify. rewrite Hs, Hl. reflexivity.
Qed.

(** A hold of six seconds that ends three seconds after the counter
    wrapped. *)
Lemma counter_wrap_makes_press_short_witness :
  let w := set_clock (1500 * TICKS_PERIOD + 3000) started in
  classify 6000 = SuperLong /\
  fst (handle_button false (HB_wait_release ((clock w - 6000) mod TICKS_PERIOD)) w)
    = (HB_beep false false, 200).
Proof.
  intros w. split; [vm_compute; reflexivity|].
  refine (proj1 (counter_wrap_makes_press_short w 6000 _ _)); vm_compute; auto.
  split; [discriminate | reflexivity].
Defined.

(** ** The pump and the valves, one sequence at a time *)

(** X15: A turn of a sequence keeps the pump out of a layout that blocks the
    water, whether the sequence is resumed or cancelled, as long as the
    valves are still in the layout the sequence set before a wait that ends
    with [set_pump(True)].  The turns after the three pump switch delays are
    the only ones that rely on what an earlier turn did to the valves. *)
Theorem turn_keeps_pump_safe (p : pc) (w : world) :
  pump_safe w = true ->
  (forall l, layout_before_pump p = Some l -> valves w = Some l) ->
  pump_safe (snd (resume p w)) = true /\ pump_safe (snd (throw p w)) = true.
Proof.
  intros Hs Hl. destruct w as [[v1 v2 v3 v4 pu bf bd] ].
  unfold pump_safe, valves in *. cbn [hw] in *.
  destruct p; cbn [layout_before_pump] in Hl;
    try (specialize (Hl _ eq_refl); unfold layout_of in Hl; cbn in Hl;
         destruct v1, v2, v3, v4; try discriminate Hl);
    exec_M; try (destruct (flush_needed _); exec_M);
    try (split; reflexivity);
    try (split; first [exact Hs | reflexivity]);
    destruct pu; exec_M; split; first [exact Hs | reflexivity].
Qed.

(** The theorem just before the pump switch of the tap scenario: the pump
    runs since the pre-flush, the valves are in Filter. *)
Lemma turn_keeps_pump_safe_witness :
  let w := world_at tap_to_filter 72599 in
  pcs w = [FW_psd 720] /\ valves w = Some Filter /\
  pump_safe (snd (resume (FW_psd 720) w)) = true.
Proof.
  intros w. split; [vm_compute; reflexivity|]. split; [vm_compute; reflexivity|].
  refine (proj1 (turn_keeps_pump_safe (FW_psd 720) w _ _)).
  - vm_compute. reflexivity.
  - intros l [= <-]. vm_compute. reflexivity.
Defined.

(** ** Cancellation outside the [try] block of a filtration *)

(** X16: A task that is cancelled anywhere but inside the [try] block of
    [filter_water] ends in its next turn without writing a pin or printing a
    line: a pump that runs keeps running and the valves stay in their
    layout.  This is so for a task that has not run yet, for the automatic
    and the long flush, for the pre-flush of a filtration and for the cleanup
    of a filtration, which is abandoned.  [last_flush] is set when the task
    was in a flush with a [finally] block; [last_filtering] is not set. *)
Theorem cancel_outside_try (w : world) (i : nat) (t : task) (now : Z) :
  tasks w !! i = Some t -> t_cancel t = true -> pc_done (t_pc t) = false ->
  in_try (t_pc t) = false ->
  clock w <= now -> t_wake t <= now ->
  exists w',
    step (RunTask i now) w = Some w' /\
    t_pc <$> tasks w' !! i = Some Done /\
    hw w' = hw w /\ console w' = console w /\
    last_flush w' = (if in_flush_try (t_pc t) then now / 1000 else last_flush w) /\
    last_filtering w' = last_filtering w /\
    running_task_type w' = running_task_type w.
Proof.
  intros Ht Hc Hd Hp Hk Hw.
  assert (Hi : (i < length (tasks w))%nat) by (eapply lookup_lt_Some; exact Ht).
  destruct t as [p wk c]. cbn [t_pc t_wake t_cancel] in *. subst c.
  destruct w as [[] ]. cbn [tasks clock] in *.
  unfold step. cbn [tasks clock]. rewrite Ht. cbn [t_pc t_wake t_cancel].
  rewrite (leb_true _ _ Hk), (leb_true _ _ Hw), Hd. cbn [negb andb].
  destruct p; try discriminate; unfold due; exec_M;
    (eexists; split; [reflexivity|]); cbn [tasks in_flush_try];
    rewrite (list_lookup_insert_eq _ _ _ Hi); cbn; auto 10.
Qed.

(** The theorem in the scenario of a six-second hold during the pre-flush:
    the filtration is cancelled 9 s after the loops started, while the pump
    runs in the Flush layout; its last turn leaves both as they are. *)
Lemma cancel_outside_try_witness :
  let w := after_turn (RunButton false (at_ms 9000))
             (world_at super_long_press_in_pre_flush 8999) in
  tasks w !! 0%nat = Some (Task (FW_pre 720) (at_ms 9000) true) /\
  pump_on w = true /\ valves w = Some Flush /\
  exists w', step (RunTask 0 (at_ms 9000)) w = Some w' /\ hw w' = hw w.
Proof.
  intros w.
  assert (Ht : tasks w !! 0%nat = Some (Task (FW_pre 720) (at_ms 9000) true))
    by (vm_compute; reflexivity).
  split; [exact Ht|]. split; [vm_compute; reflexivity|]. split; [vm_compute; reflexivity|].
  destruct (cancel_outside_try w 0 _ (at_ms 9000) Ht eq_refl eq_refl eq_refl)
    as (w' & Hs & _ & Hh & _).
  - vm_compute. discriminate.
  - vm_compute. discriminate.
  - exists w'. auto.
Defined.

(** ** Start-up and the time stamps *)

Lemma main_state (t0 : Z) (f : option file_content) (w0 : world) :
  main t0 f = Ok w0 ->
  clock w0 = t0 + 700 /\ tasks w0 = [] /\ running_task w0 = None /\
  running_task_type w0 = None /\
  last_flush w0 = 0 /\ last_filtering w0 = 0 /\ start_filtering w0 = 0 /\
  relays w0 = (true, true, true, true, false) /\ BUZZER_duty (hw w0) = 0 /\
  BUZZER_freq (hw w0) = config_get (CONFIG w0) "buzzer_frequency" /\
  button_co w0 = (HB_start, t0 + 700) /\ auto_co w0 = (AC_start, t0 + 700).
Proof.
  destruct (read_config (power_on t0 f)) as [[d|e]|e] eqn:Hr; revert Hr;
    unfold main, init, read_config, power_on, relays; exec_M; intros Hr; rewrite Hr;
    try discriminate.
  exec_M. intros [= <-].
  cbn [clock tasks running_task running_task_type last_flush last_filtering start_filtering
       hw PIN_VALVE1 PIN_VALVE2 PIN_VALVE3 PIN_VALVE4 PIN_PUMP BUZZER_duty BUZZER_freq CONFIG
       button_co auto_co].
  assert (E : t0 + 100 + 100 + 500 = t0 + 700) by lia. rewrite E.
  repeat (split; [reflexivity|]). reflexivity.
Qed.


Lemma resume_stamps (p : pc) (w : world) :
  let w' := snd (resume p w) in
  clock w' = clock w /\
  (last_flush w' = last_flush w \/ last_flush w' = clock w / 1000) /\
  (last_filtering w' = last_filtering w \/ last_filtering w' = clock w / 1000) /\
  (start_filtering w' = start_filtering w \/ start_filtering w' = clock w / 1000).
Proof.
  destruct w as [[] ]. destruct PIN_PUMP0, p; exec_M;
    try (destruct (flush_needed _); exec_M); cbn; auto 10.
Qed.

Lemma throw_stamps (p : pc) (w : world) :
  let w' := snd (throw p w) in
  clock w' = clock w /\
  (last_flush w' = last_flush w \/ last_flush w' = clock w / 1000) /\
  (last_filtering w' = last_filtering w \/ last_filtering w' = clock w / 1000) /\
  (start_filtering w' = start_filtering w \/ start_filtering w' = clock w / 1000).
Proof. destruct w as [[] ]. destruct p; exec_M; cbn; auto 10. Qed.

Lemma decide_action_clock (sl l : bool) (w : world) :
  clock (exec (decide_action sl l) w) = clock w.
Proof.
  unfold exec, decide_action, running_task_cancel.
  destruct w as [[] ]. exec_M. destruct (task_done _); exec_M.
  - destruct sl, l; exec_M; reflexivity.
  - destruct running_task0 as [i|]; unfold cancel_task; cbn [tasks];
      [destruct (tasks0 !! i) as [t|]; [destruct (pc_done (t_pc t))|]|];
      destruct sl, l, running_task_type0 as [[]|];
      cbn [type_is task_type_eqb andb]; exec_M; reflexivity.
Qed.

Lemma handle_button_stamps (pressed : bool) (p : button_pc) (w : world) :
  let w' := snd (handle_button pressed p w) in
  clock w' = clock w /\ last_flush w' = last_flush w /\
  last_filtering w' = last_filtering w /\ start_filtering w' = start_filtering w.
Proof.
  destruct p as [| |ms_start|sl l].
  1-3: destruct w as [[] ]; destruct pressed; exec_M;
       try (destruct (super_long_pressed_of _); try destruct (long_pressed_of _); exec_M);
       cbn; auto.
  pose proof (decide_action_relays sl l (exec (buzzer_duty_u16 0) w)) as (_ & Hf & Hg & Hs).
  pose proof (decide_action_clock sl l (exec (buzzer_duty_u16 0) w)) as Hc.
  assert (E : exists pm, handle_button pressed (HB_beep sl l) w =
                         (pm, exec (decide_action sl l) (exec (buzzer_duty_u16 0) w))).
  { unfold handle_button, exec.
    cbv beta iota zeta delta [mbind M_bind bind snd].
    destruct (buzzer_duty_u16 0 w) as [[] v1].
    destruct (decide_action sl l v1) as [[] v2].
    destruct v2 as [[] ]. destruct pressed; exec_M; eexists; reflexivity. }
  destruct E as [pm ->]. cbn [snd]. revert Hc Hf Hg Hs.
  generalize (exec (decide_action sl l) (exec (buzzer_duty_u16 0) w)).
  intros v. destruct v as [[] ]. destruct w as [[] ]. exec_M.
  intros Hc Hf Hg Hs. cbn in *. auto.
Qed.

Lemma check_auto_flush_stamps (p : auto_pc) (w : world) :
  let w' := snd (check_auto_flush p w) in
  clock w' = clock w /\ last_flush w' = last_flush w /\
  last_filtering w' = last_filtering w /\ start_filtering w' = start_filtering w.
Proof.
  destruct p.
  - destruct w as [[] ]. exec_M. cbn. auto.
  - pose proof (check_auto_flush_body_eq w) as Hb.
    unfold check_auto_flush. unfold exec in Hb.
    cbv beta iota zeta delta [mbind M_bind bind snd sleep ret mret M_ret] in Hb |- *.
    destruct (check_auto_flush_body w) as [[] v]. cbn [snd] in Hb. subst v.
    destruct (_ && _); destruct w as [[] ]; unfold start_auto_flush; exec_M; cbn; auto.
Qed.

Lemma stamps_later (w : world) (now : Z) :
  stamps_ok w -> clock w <= now -> stamps_ok (set_clock now w).
Proof.
  unfold stamps_ok. intros (Hf & Hg & Hs) Hk.
  assert (clock w / 1000 <= now / 1000) by (apply Z.div_le_mono; lia).
  destruct w as [[] ]. cbn in *. lia.
Qed.

Lemma step_stamps (l : label) (w w' : world) :
  stamps_ok w -> step l w = Some w' -> stamps_ok w'.
Proof.
  intros Hok. destruct l as [i now|pressed now|now]; unfold step.
  - destruct (tasks w !! i) as [t|]; [|discriminate].
    destruct (clock w <=? now) eqn:Hk; [|discriminate]. apply Z.leb_le in Hk.
    destruct (_ && _); [|discriminate].
    pose proof (stamps_later w now Hok Hk) as H1. revert H1.
    generalize (set_clock now w). intros v (Hf & Hg & Hs).
    assert (H : forall r : pc * Z * world,
              clock (snd r) = clock v /\
              (last_flush (snd r) = last_flush v \/ last_flush (snd r) = clock v / 1000) /\
              (last_filtering (snd r) = last_filtering v \/
               last_filtering (snd r) = clock v / 1000) /\
              (start_filtering (snd r) = start_filtering v \/
               start_filtering (snd r) = clock v / 1000) ->
              match r with
              | (p, ms, w1) => Some (set_tasks (<[i := Task p (due w1 ms) false]> (tasks w1)) w1)
              end = Some w' -> stamps_ok w').
    { intros [[p ms] w1] (Hc & Hf' & Hg' & Hs'). cbn [snd] in *. intros [= <-].
      unfold stamps_ok. destruct w1 as [[] ]. cbn in *. rewrite Hc. lia. }
    destruct (t_cancel t); apply H; [apply throw_stamps | apply resume_stamps].
  - destruct (clock w <=? now) eqn:Hk; [|discriminate]. apply Z.leb_le in Hk.
    destruct (_ <=? _); [|discriminate]. cbn [andb].
    pose proof (stamps_later w now Hok Hk) as H1.
    pose proof (handle_button_stamps pressed (fst (button_co w)) (set_clock now w)) as H2.
    revert H1 H2. generalize (set_clock now w). intros v (Hf & Hg & Hs).
    destruct (handle_button _ _ v) as [[p ms] w1]. cbn [snd].
    intros (Hc & Hf' & Hg' & Hs') [= <-].
    unfold stamps_ok. destruct w1 as [[] ]. cbn in *. rewrite Hc. lia.
  - destruct (clock w <=? now) eqn:Hk; [|discriminate]. apply Z.leb_le in Hk.
    destruct (_ <=? _); [|discriminate]. cbn [andb].
    pose proof (stamps_later w now Hok Hk) as H1.
    pose proof (check_auto_flush_stamps (fst (auto_co w)) (set_clock now w)) as H2.
    revert H1 H2. generalize (set_clock now w). intros v (Hf & Hg & Hs).
    destruct (check_auto_flush _ v) as [[p ms] w1]. cbn [snd].
    intros (Hc & Hf' & Hg' & Hs') [= <-].
    unfold stamps_ok. destruct w1 as [[] ]. cbn in *. rewrite Hc. lia.
Qed.

Lemma run_stamps (ls : list label) (w w' : world) :
  stamps_ok w -> run ls w = Some w' -> stamps_ok w'.
Proof.
  revert w. induction ls as [|l ls IH]; intros w Hok; cbn [run].
  - intros [= <-]. exact Hok.
  - destruct (step l w) as [w1|] eqn:E; [|discriminate].
    apply IH. eapply step_stamps; eassumption.
Qed.

(** X18: When the clock is not negative at power-on, no time stamp is ever in the
    future: in every world the program reaches, [last_flush],
    [last_filtering] and [start_filtering] are at most [time.time()].  So the
    ages that [filter_water] and [check_auto_flush] compare with the
    configuration, and the duration a long press saves, are never
    negative. *)
Theorem stamps_not_in_future
    (t0 : Z) (f : option file_content) (w0 w : world) (ls : list label) :
  0 <= t0 -> main t0 f = Ok w0 -> run ls w0 = Some w ->
  0 <= clock w / 1000 - Z.max (last_flush w) (last_filtering w) /\
  0 <= clock w / 1000 - start_filtering w.
Proof.
  intros Ht Hm Hr.
  assert (H0 : stamps_ok w0).
  { destruct (main_state _ _ _ Hm) as (Hc & _ & _ & _ & Hf & Hg & Hs & _).
    unfold stamps_ok. rewrite Hc, Hf, Hg, Hs.
    assert (0 <= (t0 + 700) / 1000) by (apply Z.div_pos; lia). lia. }
  pose proof (run_stamps _ _ _ H0 Hr) as H.
  destruct H as (Hf & Hg & Hs). lia.
Qed.

(** The theorem at the dispatch of the long press in the long-press
    scenario: the duration that is saved there is not negative. *)
Lemma stamps_not_in_future_witness :
  let w := world_with None long_press_while_filtering 116600 in
  0 <= clock w / 1000 - start_filtering w.
Proof.
  intros w.
  refine (proj2 (stamps_not_in_future T0 None (started_with None) w
                   (schedule long_press_while_filtering (at_ms 116600) (Z.to_nat 116600)
                      (started_with None))
                   _ (started_with_ok None ∅ eq_refl) (run_schedule _ _ _ _))).
  vm_compute. discriminate.
Defined.

(** ** The button test *)

Lemma test_button_loop_app (r1 r2 : list bool) (s : test_button.state) :
  test_button.loop (r1 ++ r2) s =
  let (s1, ms1) := test_button.loop r1 s in
  let (s2, ms2) := test_button.loop r2 s1 in
  (s2, ms1 + ms2).
Proof.
  revert s. induction r1 as [|p r1 IH]; intros s; cbn [app test_button.loop].
  - destruct (test_button.loop r2 s). reflexivity.
  - destruct (test_button.turn p s) as [s1 ms1]. rewrite IH.
    destruct (test_button.loop r1 s1) as [s2 ms2].
    destruct (test_button.loop r2 s2) as [s3 ms3]. f_equal. lia.
Qed.

(** X19: In the button test, [toggle_relay] reads the pin, writes its negation
    and then reports the value it read: after a press the console says ON
    when the pump is off and OFF when it is on.  Over any readings of the
    button the pump is on exactly when the number of turns that saw the
    button down is odd; only the console line before the first press is
    right.  A turn that sees the button down sleeps 350 ms, any other
    50 ms. *)
Theorem test_button_reports_old_state (readings : list bool) :
  let presses := length (filter (fun b => b = true) readings) in
  let s := fst (test_button.loop readings test_button.initial) in
  test_button.PIN_PUMP s = Nat.odd presses /\
  test_button.reported s = Some (if (0 <? presses)%nat then negb (test_button.PIN_PUMP s)
                                 else test_button.PIN_PUMP s) /\
  snd (test_button.loop readings test_button.initial) =
    50 * Z.of_nat (length readings) + 300 * Z.of_nat presses.
Proof.
  induction readings as [|b rs IH] using rev_ind.
  - cbn. auto.
  - cbv zeta in *. rewrite test_button_loop_app.
    destruct (test_button.loop rs test_button.initial) as [s ms]. cbn [fst snd] in IH.
    destruct IH as (Hp & Hr & Ht).
    rewrite filter_app, !length_app. cbn [test_button.loop].
    destruct b.
    + rewrite filter_cons_True by reflexivity. cbn [filter length test_button.turn fst snd].
      rewrite Nat.add_1_r, Nat.odd_succ, <- Nat.negb_odd, <- Hp.
      assert (E : (0 <? S (length (filter (fun b => b = true) rs)))%nat = true)
        by (apply Nat.ltb_lt; lia).
      rewrite E. destruct s as [pu o].
      unfold test_button.toggle_relay, test_button.reported, test_button.print.
      cbn [test_button.PIN_PUMP test_button.out].
      destruct pu; cbn [negb test_button.PIN_PUMP test_button.out]; rewrite last_snoc;
        (split; [reflexivity|]); (split; [reflexivity|]); cbn [length]; lia.
    + rewrite filter_cons_False by discriminate. cbn [filter length test_button.turn fst snd].
      rewrite Nat.add_0_r. split; [exact Hp|]. split; [exact Hr|]. lia.
Qed.

(** ** A press from idle, from the first poll to the new task *)

Lemma run_button_turn (w : world) (p : button_pc) (wk : Z) (pressed : bool) (now : Z)
    (ls : list label) :
  button_co w = (p, wk) -> (clock w <=? now) = true -> (wk <=? now) = true ->
  run (RunButton pressed now :: ls) w =
  run ls (finish_button (handle_button pressed p (set_clock now w))).
Proof.
  intros Hb Hk Hw. cbn [run]. unfold step, finish_button.
  rewrite Hb. cbn [fst snd]. rewrite Hk, Hw. cbn [andb].
  destruct (handle_button pressed p (set_clock now w)) as [[q ms] w1]. reflexivity.
Qed.

Ltac button_turn :=
  erewrite run_button_turn;
  [
  | cbn [button_co]; first [eassumption | reflexivity]
  | cbn [clock]; apply leb_true; lia
  | apply leb_true; lia ];
  cbv beta iota zeta delta [finish_button due]; exec_M.

Lemma last_cons_default (t t' : Z) (held : list Z) :
  List.last (t' :: held) t = List.last held t'.
Proof.
  revert t t'. induction held as [|h held IH]; intros t t'; [reflexivity|].
  change (List.last (t' :: h :: held) t) with (List.last (h :: held) t).
  rewrite (IH t h), (IH t' h). reflexivity.
Qed.

(** The polls while the button is held change nothing but the clock and the
    time of the next poll. *)
Lemma run_held (ms : Z) (ls : list label) (held : list Z) :
  forall (v : world) (t : Z),
    clock v = t -> button_co v = (HB_wait_release ms, t + Z.max 0 50) -> spaced t held ->
    run (map (RunButton true) held ++ ls) v = run ls (holding ms (List.last held t) v).
Proof.
  induction held as [|t' held IH]; intros v t Hc Hb Hs.
  - cbn [map app List.last]. f_equal. destruct v as [[] ]. unfold holding.
    cbn in Hc, Hb. subst. reflexivity.
  - destruct Hs as [H1 Hs]. cbn [map app].
    rewrite (run_button_turn v (HB_wait_release ms) (t + Z.max 0 50) true t' _ Hb)
      by (apply leb_true; lia).
    assert (E : finish_button (handle_button true (HB_wait_release ms) (set_clock t' v))
                = holding ms t' v).
    { destruct v as [[] ]. unfold finish_button, holding, due. exec_M. reflexivity. }
    rewrite E, (IH (holding ms t' v) t' eq_refl eq_refl Hs), last_cons_default.
    reflexivity.
Qed.

(** X20: While no task runs, a press is handled by the button loop in these
    turns: the poll that sees the button down (at [n0]), the polls that see
    it held (at the times [held], each 50 ms or more after the one before),
    the poll that sees it up (at [n1]), and the turn after the beep (at
    [n2]).  The polls in between change nothing.  The press is classified by
    the difference of the counter readings at [n1] and [n0]; the beep lasts
    200, 500 or 1000 ms; after it the buzzer is off and the sequence for the
    press is a new task, due at once.  The relays are not touched. *)
Theorem press_from_idle (w : world) (wk n0 n1 n2 : Z) (held : list Z) (again : bool) :
  let d := n1 mod TICKS_PERIOD - n0 mod TICKS_PERIOD in
  button_co w = (HB_wait_press, wk) -> task_done w = true ->
  clock w <= n0 -> wk <= n0 ->
  spaced n0 held -> List.last held n0 + 50 <= n1 ->
  n1 + beep_ms (classify d) <= n2 ->
  exists w',
    run (RunButton true n0 :: map (RunButton true) held ++
         [RunButton false n1; RunButton again n2]) w = Some w' /\
    tasks w' = tasks w ++ [Task (sequence_for (classify d)) n2 false] /\
    running_task w' = Some (length (tasks w)) /\
    relays w' = relays w /\ BUZZER_duty (hw w') = 0 /\
    console w' = console w ++
      [Print (press_msg (classify d));
       BuzzerFreq (config_get (CONFIG w) "buzzer_frequency"); BuzzerDuty BEEP_ON;
       BuzzerDuty 0; Print (started_msg (classify d))].
Proof.
  intros d Hb Hd Hk Hw Hs H1 H2. subst d. revert H2.
  destruct w as [[] ]. cbn [button_co clock tasks console CONFIG] in *.
  unfold task_done in Hd. cbn [running_task tasks] in Hd.
  unfold classify, relays.
  destruct (super_long_pressed_of _) eqn:Es; [|destruct (long_pressed_of _) eqn:El];
    cbn [press_of_flags beep_ms sequence_for press_msg started_msg]; intros H2;
    destruct again;
    (eexists; split;
     [ button_turn;
       erewrite (run_held _ _ held _ n0); [|reflexivity|reflexivity|exact Hs];
       unfold holding; exec_M;
       button_turn; rewrite Es, ?El; exec_M; button_turn;
       unfold task_done; cbn [running_task tasks]; rewrite Hd; exec_M; reflexivity
     | cbn; rewrite <- ?app_assoc; cbn; auto 10 ]).
Qed.

(** The theorem for the tap of the tap scenario, with the turns the
    scheduler takes: down at 300 ms, still down at 350 ms, up at 400 ms, and
    the filtration is created at 600 ms. *)
Lemma press_from_idle_witness :
  let w := world_at tap_to_filter 299 in
  let turns := RunButton true (at_ms 300) :: map (RunButton true) [at_ms 350] ++
               [RunButton false (at_ms 400); RunButton false (at_ms 600)] in
  run turns w = Some (after_turn (RunButton false (at_ms 600)) (world_at tap_to_filter 599)) /\
  exists w', run turns w = Some w' /\ pcs w' = [FW_start None].
Proof.
  intros w turns. split; [vm_compute; reflexivity|].
  destruct (press_from_idle w (at_ms 300) (at_ms 300) (at_ms 400) (at_ms 600)
              [at_ms 350] false)
    as (w' & Hr & Ht & _);
    try (lazymatch goal with |- ex _ => fail | |- _ => idtac end;
         vm_compute; first [reflexivity | discriminate | (split; [discriminate|exact I])]).
  exists w'. split; [exact Hr|]. unfold pcs. rewrite Ht. vm_compute. reflexivity.
Defined.
